(** * MCQExam: test-session orchestration and timeline accounting

    A shallow embedding of the session logic of the MCQ test platform:
    the countdown computed by [Timer] (pages/StudentDashboard.tsx) and by
    [TestControlPanel] (pages/AdminDashboard.tsx), the administrator's
    [handleControlAction], and the student's [handleSelectOption] and
    [handleFinalSubmit], over an explicit model of the three tables the
    code talks to ([test_sessions], [student_answers],
    [student_submissions]).

    Wall-clock instants are integers: the milliseconds that
    [new Date(..).getTime()] returns.  [Math.floor (x / 1000)] on such an
    integer is [x / 1000] on [Z] (floor division), and
    [Math.round (x / 1000)] is [(x + 500) / 1000] (halves round up). *)

From Stdlib Require Import ZArith Lia List Bool.
From stdpp Require Import gmap strings list fin_maps.

Local Open Scope Z_scope.

(** ** Data model (types.ts) *)

Inductive Status := waiting | started | paused | finished.

Definition Status_eqb (a b : Status) : bool :=
  match a, b with
  | waiting, waiting | started, started
  | paused, paused | finished, finished => true
  | _, _ => false
  end.

(** A row of [test_sessions].  types.ts declares [duration_minutes] a
    number; the column holds [null] ([None]) once a Start has sent a
    [NaN] duration. *)
Record TestSession := {
  id : string;
  test_id : option string;
  status : Status;
  duration_minutes : option Z;
  start_time : option Z;
  test_title : option string;
  last_paused_at : option Z;
  total_paused_duration_seconds : Z
}.

Record Test := {
  Test_id : string;
  Test_title : string;
  Test_description : string
}.

Record QuestionOption := {
  text : string;
  isCorrect : bool
}.

Record Question := {
  Question_id : string;
  Question_test_id : string;
  question_text : string;
  options : list QuestionOption
}.

Record StudentAnswer := {
  session_id : string;
  student_id : string;
  question_id : string;
  selected_option_index : nat
}.

Record StudentSubmission := {
  sub_session_id : string;
  sub_student_id : string
}.

(** The key of the singleton session row, and of every answer and
    submission row the clients write. *)
Definition active_session : string := "active_session".

(** ** JavaScript idioms used by the code *)

(** [x || 0] on a number: [0] when [x] is falsy, [x] otherwise. *)
Definition or_zero (x : Z) : Z := if x =? 0 then 0 else x.

(** Truthiness of a [string | null] value: [null] and the empty string
    are falsy. *)
Definition truthy (o : option string) : bool :=
  match o with
  | Some s => negb (String.eqb s "")
  | None => false
  end.

(** [a || b] on [string | null] values. *)
Definition or_else (a b : option string) : option string :=
  if truthy a then a else b.

(** A number held in component state: an integer, or [NaN], which is
    what [parseInt] gives for an empty field. *)
Inductive JsNumber :=
| Num (z : Z)
| NaN.

(** A number as [JSON.stringify] writes it into a payload: [NaN]
    becomes [null]. *)
Definition to_json (n : JsNumber) : option Z :=
  match n with
  | Num z => Some z
  | NaN => None
  end.

(** A [number | null] value read in arithmetic: [null * 60] is [0]. *)
Definition to_number (v : option Z) : Z :=
  match v with
  | Some z => z
  | None => 0
  end.

(** [Math.floor (ms / 1000)] and [Math.round (ms / 1000)]. *)
Definition floor_seconds (ms : Z) : Z := ms / 1000.
Definition round_seconds (ms : Z) : Z := (ms + 500) / 1000.

(** ** The store *)

(** A [Partial<TestSession>] as [handleControlAction] builds it.  The
    [status] key is always present.  [None] is an absent key; for
    [last_paused_at] a present key holds [null] or an instant, and for
    [duration_minutes] it holds a number or [null] (a [NaN] duration
    is serialised as [null]).  A key whose value is [undefined] is
    dropped when the payload is serialised, so [test_title] is absent
    when no title was found. *)
Record SessionUpdates := {
  upd_status : Status;
  upd_test_id : option string;
  upd_duration_minutes : option (option Z);
  upd_start_time : option Z;
  upd_test_title : option string;
  upd_last_paused_at : option (option Z);
  upd_total_paused_duration_seconds : option Z
}.

Definition only_status (st : Status) : SessionUpdates :=
  {| upd_status := st; upd_test_id := None; upd_duration_minutes := None;
     upd_start_time := None; upd_test_title := None;
     upd_last_paused_at := None;
     upd_total_paused_duration_seconds := None |}.

Definition apply_updates (u : SessionUpdates) (row : TestSession) : TestSession :=
  {| id := id row;
     test_id := match upd_test_id u with
                | Some t => Some t
                | None => test_id row
                end;
     status := upd_status u;
     duration_minutes := default (duration_minutes row) (upd_duration_minutes u);
     start_time := match upd_start_time u with
                   | Some t => Some t
                   | None => start_time row
                   end;
     test_title := match upd_test_title u with
                   | Some t => Some t
                   | None => test_title row
                   end;
     last_paused_at := default (last_paused_at row) (upd_last_paused_at u);
     total_paused_duration_seconds :=
       default (total_paused_duration_seconds row)
               (upd_total_paused_duration_seconds u) |}.

Record Database := {
  session_row : TestSession;
  student_answers : list StudentAnswer;
  student_submissions : list StudentSubmission
}.

(** What a call to the store answers: [{ error: null }] or an error
    with its message. *)
Inductive DbReply := DbOk | DbError (message : string).

(** An infrastructure failure injected into one call to the store, with
    the message the client library reports; [None] when the call reaches
    the tables. *)
Definition Fault := option string.

Definition same_answer_key (a b : StudentAnswer) : bool :=
  String.eqb (session_id a) (session_id b)
  && String.eqb (student_id a) (student_id b)
  && String.eqb (question_id a) (question_id b).

Definition same_submission_key (a b : StudentSubmission) : bool :=
  String.eqb (sub_session_id a) (sub_session_id b)
  && String.eqb (sub_student_id a) (sub_student_id b).

(** The session the student page falls back to when no row exists
    (the object literal of [fetchTestSession]). *)
Definition default_session : TestSession :=
  {| id := active_session; test_id := None; status := waiting;
     duration_minutes := Some 60; start_time := None; test_title := Some "";
     last_paused_at := None; total_paused_duration_seconds := 0 |}.

(** The message of the store when an insert meets a row that holds
    its key. *)
Definition duplicate_key : string :=
  "duplicate key value violates unique constraint".

Module Db.

(** [from('test_sessions').update(updates).eq('id', 'active_session')]:
    the payload is written over every row the filter selects; the
    filter names the row by its id and nothing else. *)
Definition update_session (u : SessionUpdates) (db : Database) : Database :=
  {| session_row :=
       if String.eqb (id (session_row db)) active_session
       then apply_updates u (session_row db)
       else session_row db;
     student_answers := student_answers db;
     student_submissions := student_submissions db |}.

(** [from('student_answers').upsert(row, { onConflict:
    'session_id,student_id,question_id' })]: the row that holds the
    conflict key is overwritten, and the payload is appended when no
    row holds it. *)
Fixpoint upsert_answer (r : StudentAnswer) (t : list StudentAnswer)
  : list StudentAnswer :=
  match t with
  | [] => [r]
  | x :: t' =>
      if same_answer_key x r then r :: t' else x :: upsert_answer r t'
  end.

(** Modelled from the spec: the uniqueness constraint of the
    [student_submissions] table (the schema script is not part of the
    sources).  "Insertion must be rejected (not overwritten) if the key
    already exists": [from('student_submissions').insert(row)] answers
    with an error and writes nothing when a row with the same
    (session, student) key is present. *)
Definition insert_submission (r : StudentSubmission)
    (t : list StudentSubmission) : list StudentSubmission * DbReply :=
  if existsb (same_submission_key r) t
  then (t, DbError duplicate_key)
  else (t ++ [r], DbOk).

(** Modelled from the spec: the stored routine [reset_test_session]
    behind [supabase.rpc('reset_test_session')] (the schema script that
    defines it is not part of the sources).  In one step it "clears
    activeTestId, timestamps, accumulator, title back to defaults and
    status to waiting" and "deletes all Answer and Submission rows for
    the current generation", which the clients key by
    [active_session]. *)
Definition reset_test_session (db : Database) : Database :=
  {| session_row :=
       {| id := id (session_row db);
          test_id := test_id default_session;
          status := waiting;
          duration_minutes := duration_minutes (session_row db);
          start_time := start_time default_session;
          test_title := test_title default_session;
          last_paused_at := last_paused_at default_session;
          total_paused_duration_seconds :=
            total_paused_duration_seconds default_session |};
     student_answers :=
       List.filter (fun a => negb (String.eqb (session_id a) active_session))
                   (student_answers db);
     student_submissions :=
       List.filter
         (fun r => negb (String.eqb (sub_session_id r) active_session))
         (student_submissions db) |}.

End Db.

(** Effects a handler leaves behind, in the order it issues them. *)
Inductive Effect :=
| Alert (message : string)
| Audit (action : string)
| ConsoleError (message : string).

(** ** The student page (pages/StudentDashboard.tsx) *)

Module StudentDashboard.

(** The local [netElapsedSeconds] of the timer, read at instant [upto]
    for a test started at [start]. *)
Definition netElapsedSeconds (s : TestSession) (start upto : Z) : Z :=
  floor_seconds (upto - start) - or_zero (total_paused_duration_seconds s).

(** The closure [calculateTimeLeft] of the [started] branch of [Timer]. *)
Definition calculateTimeLeft (s : TestSession) (start now : Z) : Z :=
  let grossElapsedSeconds := floor_seconds (now - start) in
  let netElapsedSeconds :=
    grossElapsedSeconds - or_zero (total_paused_duration_seconds s) in
  let totalSeconds := to_number (duration_minutes s) * 60 in
  Z.max 0 (totalSeconds - netElapsedSeconds).

(** The value the effect of [Timer] hands to [setTimeLeft] when it is
    evaluated on snapshot [s] at instant [now]. *)
Definition timeLeft (s : TestSession) (now : Z) : Z :=
  match Status_eqb (status s) started, start_time s with
  | true, Some start => calculateTimeLeft s start now
  | false, Some start =>
      let end_ := match last_paused_at s with
                  | Some p => p
                  | None => now
                  end in
      let grossElapsedSeconds := floor_seconds (end_ - start) in
      let netElapsedSeconds :=
        grossElapsedSeconds - or_zero (total_paused_duration_seconds s) in
      let totalSeconds := to_number (duration_minutes s) * 60 in
      Z.max 0 (totalSeconds - netElapsedSeconds)
  | _, None => to_number (duration_minutes s) * 60
  end.

(** The component state of [StudentDashboard] that the handlers below
    read and write. *)
Record State := {
  session : option TestSession;
  questions : list Question;
  answers : gmap string nat;
  currentQuestionIndex : nat;
  isSubmitted : bool;
  isSubmitting : bool;
  hasLoggedTestStart : bool
}.

Definition setAnswers (m : gmap string nat) (st : State) : State :=
  {| session := session st; questions := questions st; answers := m;
     currentQuestionIndex := currentQuestionIndex st;
     isSubmitted := isSubmitted st; isSubmitting := isSubmitting st;
     hasLoggedTestStart := hasLoggedTestStart st |}.

Definition setIsSubmitting (b : bool) (st : State) : State :=
  {| session := session st; questions := questions st;
     answers := answers st;
     currentQuestionIndex := currentQuestionIndex st;
     isSubmitted := isSubmitted st; isSubmitting := b;
     hasLoggedTestStart := hasLoggedTestStart st |}.

Definition setIsSubmitted (b : bool) (st : State) : State :=
  {| session := session st; questions := questions st;
     answers := answers st;
     currentQuestionIndex := currentQuestionIndex st;
     isSubmitted := b; isSubmitting := isSubmitting st;
     hasLoggedTestStart := hasLoggedTestStart st |}.

(** The [postgres_changes] callback of the session subscription. *)
Definition onSessionChange (newSession : TestSession) (st : State) : State :=
  if Status_eqb (status newSession) waiting
     && negb (match session st with
              | Some s => Status_eqb (status s) waiting
              | None => false
              end)
  then {| session := Some newSession; questions := [];
          answers := ∅; currentQuestionIndex := 0%nat;
          isSubmitted := false; isSubmitting := false;
          hasLoggedTestStart := false |}
  else {| session := Some newSession; questions := questions st;
          answers := answers st;
          currentQuestionIndex := currentQuestionIndex st;
          isSubmitted := isSubmitted st; isSubmitting := isSubmitting st;
          hasLoggedTestStart := hasLoggedTestStart st |}.

(** The rows [fetchTestContent] reads back for one student:
    [.eq('student_id', user.id).eq('session_id', 'active_session')]. *)
Definition fetchAnswers (user_id : string) (db : Database) : list StudentAnswer :=
  List.filter (fun a => String.eqb (student_id a) user_id
                        && String.eqb (session_id a) active_session)
              (student_answers db).

(** The rows [checkSubmissionStatus] looks for. *)
Definition fetchSubmissions (user_id : string) (db : Database)
  : list StudentSubmission :=
  List.filter
    (same_submission_key
       {| sub_session_id := active_session; sub_student_id := user_id |})
    (student_submissions db).

(** [handleSelectOption]: the local map is replaced first, then the
    upsert is awaited; its error is only logged. *)
Definition handleSelectOption (user_id questionId : string)
    (optionIndex : nat) (fault : Fault) (st : State) (db : Database)
  : State * Database * list Effect :=
  let newAnswers := <[questionId := optionIndex]> (answers st) in
  let st' := setAnswers newAnswers st in
  match fault with
  | Some message =>
      (st', db, [ConsoleError ("Error saving answer: " +:+ message)])
  | None =>
      (st',
       {| session_row := session_row db;
          student_answers :=
            Db.upsert_answer
              {| session_id := active_session; student_id := user_id;
                 question_id := questionId;
                 selected_option_index := optionIndex |}
              (student_answers db);
          student_submissions := student_submissions db |},
       [])
  end.

(** [handleFinalSubmit] up to its [await]: the flag is raised and the
    insert is sent. *)
Definition handleFinalSubmit_request (user_id : string) (st : State)
  : State * StudentSubmission :=
  (setIsSubmitting true st,
   {| sub_session_id := active_session; sub_student_id := user_id |}).

(** The insert as the store executes it. *)
Definition handleFinalSubmit_insert (r : StudentSubmission) (fault : Fault)
    (db : Database) : Database * DbReply :=
  match fault with
  | Some message => (db, DbError message)
  | None =>
      let '(t, reply) := Db.insert_submission r (student_submissions db) in
      ({| session_row := session_row db;
          student_answers := student_answers db;
          student_submissions := t |}, reply)
  end.

(** [handleFinalSubmit] after its [await]. *)
Definition handleFinalSubmit_resume (isAutoSubmit : bool) (reply : DbReply)
    (st : State) : State * list Effect :=
  match reply with
  | DbError message =>
      (setIsSubmitting false st,
       [Alert ("There was an error submitting your test: " +:+ message)])
  | DbOk =>
      (setIsSubmitted true st,
       Audit (if isAutoSubmit then "student_auto_submitted"
              else "student_submitted_test")
       :: (if isAutoSubmit
           then [Alert "Time is up! Your test has been submitted automatically. Please review your report."]
           else []))
  end.

(** One uninterrupted call of [handleFinalSubmit]. *)
Definition handleFinalSubmit (user_id : string) (isAutoSubmit : bool)
    (fault : Fault) (st : State) (db : Database)
  : State * Database * list Effect :=
  let '(st1, r) := handleFinalSubmit_request user_id st in
  let '(db', reply) := handleFinalSubmit_insert r fault db in
  let '(st2, eff) := handleFinalSubmit_resume isAutoSubmit reply st1 in
  (st2, db', eff).

(** [ReportSummary]: the counters it renders. *)
Definition answeredQuestions (answers : gmap string nat) : nat :=
  size answers.

Definition countsAsCorrect (questions : list Question)
    (entry : string * nat) : bool :=
  match find (fun q => String.eqb (Question_id q) entry.1) questions with
  | Some question =>
      match options question !! entry.2 with
      | Some o => isCorrect o
      | None => false
      end
  | None => false
  end.

Definition correctAnswers (questions : list Question)
    (answers : gmap string nat) : nat :=
  length (List.filter (countsAsCorrect questions) (map_to_list answers)).

End StudentDashboard.

(** ** The control panel (pages/AdminDashboard.tsx, [TestControlPanel]) *)

Module AdminDashboard.

(** Props and component state that [handleControlAction] closes over.
    [duration] is what [parseInt] made of the duration field: [NaN]
    when the field was cleared. *)
Record Panel := {
  tests : list Test;
  session : option TestSession;
  selectedTestId : option string;
  duration : JsNumber
}.

(** [session?.status === st]. *)
Definition status_is (session : option TestSession) (st : Status) : bool :=
  match session with
  | Some s => Status_eqb (status s) st
  | None => false
  end.

(** The value the timer effect of the panel hands to [setTimeLeft]. *)
Definition timeLeft (session : option TestSession) (now : Z) : Z :=
  match session with
  | Some s =>
      match Status_eqb (status s) started, start_time s with
      | true, Some start =>
          let grossElapsedSeconds := floor_seconds (now - start) in
          let netElapsedSeconds :=
            grossElapsedSeconds - or_zero (total_paused_duration_seconds s) in
          let totalSeconds := to_number (duration_minutes s) * 60 in
          Z.max 0 (totalSeconds - netElapsedSeconds)
      | false, Some start =>
          let end_ := match last_paused_at s with
                      | Some p => p
                      | None => now
                      end in
          let grossElapsedSeconds := floor_seconds (end_ - start) in
          let netElapsedSeconds :=
            grossElapsedSeconds - or_zero (total_paused_duration_seconds s) in
          let totalSeconds := to_number (duration_minutes s) * 60 in
          Z.max 0 (totalSeconds - netElapsedSeconds)
      | _, None =>
          match duration_minutes s with
          | Some d => if d =? 0 then 0 else d * 60
          | None => 0
          end
      end
  | None => 0
  end.

(** The [disabled] attributes of the control buttons, negated.  The
    Reset button is never disabled. *)
Definition button_enabled (session : option TestSession) (newStatus : Status)
  : bool :=
  match newStatus with
  | started => negb (status_is session started)
  | paused => status_is session started
  | finished =>
      negb (status_is session finished || status_is session waiting)
  | waiting => true
  end.

(** The payload built between [const updates = { status: newStatus }]
    and the [update] call; [None] is the early return of the Start
    branch after [alert('Please select a test to start.')]. *)
Definition buildUpdates (p : Panel) (newStatus : Status) (now : Z)
  : option SessionUpdates :=
  match newStatus with
  | started =>
      if status_is (session p) paused then
        match session p with
        | Some s =>
            match last_paused_at s with
            | Some pausedAt =>
                let currentPauseDuration := round_seconds (now - pausedAt) in
                Some {| upd_status := started; upd_test_id := None;
                        upd_duration_minutes := None;
                        upd_start_time := None; upd_test_title := None;
                        upd_last_paused_at := Some None;
                        upd_total_paused_duration_seconds :=
                          Some (or_zero (total_paused_duration_seconds s)
                                + currentPauseDuration) |}
            | None => Some (only_status started)
            end
        | None => Some (only_status started)
        end
      else
        let testIdToStart :=
          or_else (selectedTestId p)
                  (match session p with
                   | Some s => test_id s
                   | None => None
                   end) in
        match testIdToStart with
        | Some tid =>
            if truthy testIdToStart then
              let testTitle :=
                option_map Test_title
                  (find (fun t => String.eqb (Test_id t) tid) (tests p)) in
              Some {| upd_status := started;
                      upd_test_id :=
                        if truthy (selectedTestId p) then selectedTestId p
                        else None;
                      upd_duration_minutes := Some (to_json (duration p));
                      upd_start_time := Some now;
                      upd_test_title := testTitle;
                      upd_last_paused_at := Some None;
                      upd_total_paused_duration_seconds := Some 0 |}
            else None
        | None => None
        end
  | paused =>
      Some {| upd_status := paused; upd_test_id := None;
              upd_duration_minutes := None; upd_start_time := None;
              upd_test_title := None;
              upd_last_paused_at := Some (Some now);
              upd_total_paused_duration_seconds := None |}
  | _ => Some (only_status newStatus)
  end.

(** How a call of [handleControlAction] ends. *)
Inductive Outcome :=
| ResetSucceeded
| ResetFailed
| StartAborted
| UpdateFailed
| UpdateSucceeded.

Definition auditAction (p : Panel) (newStatus : Status) : string :=
  match newStatus with
  | started =>
      if status_is (session p) paused then "test_resumed" else "test_started"
  | paused => "test_paused"
  | finished => "test_finished"
  | waiting => ""
  end.

(** [handleControlAction newStatus], run by a panel that holds snapshot
    [session p], at instant [now], against store [db]. *)
Definition handleControlAction (p : Panel) (newStatus : Status) (now : Z)
    (fault : Fault) (db : Database) : Database * Outcome * list Effect :=
  match newStatus with
  | waiting =>
      match fault with
      | Some message =>
          (db, ResetFailed,
           [Alert ("Failed to reset test session: " +:+ message)])
      | None =>
          (Db.reset_test_session db, ResetSucceeded, [Audit "test_reset"])
      end
  | _ =>
      match buildUpdates p newStatus now with
      | None => (db, StartAborted, [Alert "Please select a test to start."])
      | Some updates =>
          match fault with
          | Some message =>
              (db, UpdateFailed,
               [Alert ("Error updating session: " +:+ message)])
          | None =>
              (Db.update_session updates db, UpdateSucceeded,
               [Audit (auditAction p newStatus)])
          end
      end
  end.

(** ** Runs of the panel

    The operations of the panel as the administrator can issue them:
    the button pressed must be enabled for the snapshot the panel
    holds, and the snapshot is the row of the store (the subscription
    has delivered the last write). *)

Record Click := {
  click_status : Status;
  click_at : Z;
  click_tests : list Test;
  click_selectedTestId : option string;
  click_duration : JsNumber
}.

Definition panel_of (c : Click) (db : Database) : Panel :=
  {| tests := click_tests c; session := Some (session_row db);
     selectedTestId := click_selectedTestId c;
     duration := click_duration c |}.

Definition click (c : Click) (db : Database) : Database :=
  if button_enabled (Some (session_row db)) (click_status c)
  then (handleControlAction (panel_of c db) (click_status c)
                            (click_at c) None db).1.1
  else db.

Definition run (cs : list Click) (db : Database) : Database :=
  fold_left (fun d c => click c d) cs db.

(** The store at bootstrap: the row inserted by [fetchTestSession]
    of the administrator page, and empty answer and submission
    tables. *)
Definition initial_db : Database :=
  {| session_row :=
       {| id := active_session; test_id := None; status := waiting;
          duration_minutes := Some 60; start_time := None; test_title := None;
          last_paused_at := None; total_paused_duration_seconds := 0 |};
     student_answers := []; student_submissions := [] |}.

End AdminDashboard.

(** ** Auxiliary definitions for the statements *)

Import AdminDashboard.

(** The row a successful Start leaves. *)
Definition started_row (c : Click) (row : TestSession) : TestSession :=
  {| id := id row;
     test_id := if truthy (click_selectedTestId c)
                then click_selectedTestId c else test_id row;
     status := started;
     duration_minutes := to_json (click_duration c);
     start_time := Some (click_at c);
     test_title :=
       match or_else (click_selectedTestId c) (test_id row) with
       | Some tid =>
           match find (fun t => String.eqb (Test_id t) tid) (click_tests c) with
           | Some t => Some (Test_title t)
           | None => test_title row
           end
       | None => test_title row
       end;
     last_paused_at := None;
     total_paused_duration_seconds := 0 |}.

Definition with_row (row : TestSession) (db : Database) : Database :=
  {| session_row := row; student_answers := student_answers db;
     student_submissions := student_submissions db |}.


(** *** The invariant of the session row *)

Definition session_inv (s : TestSession) : Prop :=
  id s = active_session
  /\ (status s = paused -> last_paused_at s <> None)
  /\ (last_paused_at s <> None -> status s = paused \/ status s = finished).

(** A press of a control button at instant [at_], by a panel whose test
    list is [catalog], with [sel] selected and [dur] minutes entered. *)
Definition press (st : Status) (at_ : Z) (catalog : list Test)
    (sel : option string) (dur : Z) : Click :=
  {| click_status := st; click_at := at_; click_tests := catalog;
     click_selectedTestId := sel; click_duration := Num dur |}.

(** The transitions of the state machine as the specification words
    them: Start from [waiting] or [finished], Resume from [paused]
    (both ask for [started]), Pause from [started], Finish from
    [started] or [paused], Reset from any status. *)
Definition spec_legal_transition (from to : Status) : bool :=
  match to, from with
  | started, (waiting | finished | paused) => true
  | paused, started => true
  | finished, (started | paused) => true
  | waiting, _ => true
  | _, _ => false
  end.

(** The rows of the answer table that hold the key of [k], and the
    uniqueness the conflict target of the upsert stands for. *)
Definition rows_with_key (k : StudentAnswer) (t : list StudentAnswer)
  : list StudentAnswer :=
  List.filter (same_answer_key k) t.

Definition unique_answer_keys (t : list StudentAnswer) : Prop :=
  forall k, (length (rows_with_key k t) <= 1)%nat.

Definition answer_row (user q : string) (i : nat) : StudentAnswer :=
  {| session_id := active_session; student_id := user; question_id := q;
     selected_option_index := i |}.

(** A run of one test: after the Start, a list of (Pause instant, Resume
    instant) pairs, pressed in order. *)
Fixpoint pause_resume_clicks (catalog : list Test) (sel : option string)
    (dur : Z) (pairs : list (Z * Z)) : list Click :=
  match pairs with
  | [] => []
  | (p, r) :: rest =>
      press paused p catalog sel dur
      :: press started r catalog sel dur
      :: pause_resume_clicks catalog sel dur rest
  end.

(** Milliseconds spent [started] between [from] and the last Resume:
    the lengths of the intervals that end at each Pause. *)
Fixpoint started_ms (from : Z) (pairs : list (Z * Z)) : Z :=
  match pairs with
  | [] => 0
  | (p, r) :: rest => (p - from) + started_ms r rest
  end.

(** Milliseconds spent [paused]. *)
Fixpoint paused_ms (pairs : list (Z * Z)) : Z :=
  match pairs with
  | [] => 0
  | (p, r) :: rest => (r - p) + paused_ms rest
  end.

(** What the Resumes add up in [total_paused_duration_seconds]. *)
Fixpoint paused_seconds (pairs : list (Z * Z)) : Z :=
  match pairs with
  | [] => 0
  | (p, r) :: rest => round_seconds (r - p) + paused_seconds rest
  end.

(** The instant of the last Resume ([from] when there is none). *)
Fixpoint last_resume (from : Z) (pairs : list (Z * Z)) : Z :=
  match pairs with
  | [] => from
  | (_, r) :: rest => last_resume r rest
  end.

(** ** Two calls of [handleFinalSubmit] in flight

    The confirmation button and the timer both call [handleFinalSubmit]
    on the same page; neither path looks at [isSubmitting] or
    [isSubmitted] before it sends its insert.  Each call runs up to its
    [await], the store executes the insert, and the call continues with
    the reply; the steps of the two calls interleave freely. *)










(** ** The clock face and the tick of [Timer] *)

From stdpp Require Import pretty.

Local Open Scope Z_scope.

Module Timer.

(** [s.padStart(n, '0')]. *)
Definition padStart (n : nat) (s : string) : string :=
  String.concat "" (replicate (n - String.length s) "0") +:+ s.

(** [Number.prototype.toString] on an integer. *)
Definition toString (x : Z) : string := pretty x.

(** The three numbers [formatTime] prints.  [%] is the remainder of
    JavaScript, which takes the sign of the dividend. *)
Definition hours (seconds : Z) : Z := seconds / 3600.
Definition minutes (seconds : Z) : Z := Z.rem seconds 3600 / 60.
Definition secs (seconds : Z) : Z := Z.rem seconds 60.

(** [formatTime], the same function in [Timer] and in
    [TestControlPanel]. *)
Definition formatTime (seconds : Z) : string :=
  let h := padStart 2 (toString (hours seconds)) in
  let m := padStart 2 (toString (minutes seconds)) in
  let s := padStart 2 (toString (secs seconds)) in
  h +:+ ":" +:+ m +:+ ":" +:+ s.

(** One run of the interval callback of [Timer] at instant [now]: the
    value handed to [setTimeLeft], and whether [onTimeUp] was called
    (and the interval cleared). *)
Definition tick (s : TestSession) (start now : Z) : Z * bool :=
  let newTimeLeft := StudentDashboard.calculateTimeLeft s start now in
  if newTimeLeft <=? 0 then (0, true) else (newTimeLeft, false).

End Timer.

(** ** Moving between questions (pages/StudentDashboard.tsx) *)

Module Navigation.

Inductive Direction := next | prev.

Definition setCurrentQuestionIndex (i : nat) (st : StudentDashboard.State)
  : StudentDashboard.State :=
  {| StudentDashboard.session := StudentDashboard.session st;
     StudentDashboard.questions := StudentDashboard.questions st;
     StudentDashboard.answers := StudentDashboard.answers st;
     StudentDashboard.currentQuestionIndex := i;
     StudentDashboard.isSubmitted := StudentDashboard.isSubmitted st;
     StudentDashboard.isSubmitting := StudentDashboard.isSubmitting st;
     StudentDashboard.hasLoggedTestStart :=
       StudentDashboard.hasLoggedTestStart st |}.

(** [handleNavigate].  [questions.length - 1] is [-1] on an empty
    list, so the comparison is made on integers. *)
Definition handleNavigate (direction : Direction) (st : StudentDashboard.State)
  : StudentDashboard.State :=
  let i := StudentDashboard.currentQuestionIndex st in
  let len := Z.of_nat (length (StudentDashboard.questions st)) in
  match direction with
  | next =>
      if Z.of_nat i <? len - 1
      then setCurrentQuestionIndex (i + 1)%nat st else st
  | prev =>
      if 0 <? Z.of_nat i
      then setCurrentQuestionIndex (i - 1)%nat st else st
  end.

(** [handleJumpToQuestion]. *)
Definition handleJumpToQuestion (index : Z) (st : StudentDashboard.State)
  : StudentDashboard.State :=
  if (0 <=? index)
     && (index <? Z.of_nat (length (StudentDashboard.questions st)))
  then setCurrentQuestionIndex (Z.to_nat index) st else st.

Inductive Move := Step (direction : Direction) | Jump (index : Z).

Definition move (mv : Move) (st : StudentDashboard.State)
  : StudentDashboard.State :=
  match mv with
  | Step d => handleNavigate d st
  | Jump i => handleJumpToQuestion i st
  end.

End Navigation.

(** ** The numbers of [ReportSummary] (pages/StudentDashboard.tsx) *)

Module ReportSummary.

Definition totalQuestions (questions : list Question) : nat :=
  length questions.

(** The "Incorrect/Unanswered" cell, [totalQuestions - correctAnswers]
    on JavaScript numbers. *)
Definition incorrectOrUnanswered (questions : list Question)
    (answers : gmap string nat) : Z :=
  Z.of_nat (totalQuestions questions)
  - Z.of_nat (StudentDashboard.correctAnswers questions answers).

End ReportSummary.

(** ** Loading and rendering the student page
    (pages/StudentDashboard.tsx) *)

Module StudentPage.

(** [hay.includes(needle)]. *)
Fixpoint includes (needle hay : string) : bool :=
  String.prefix needle hay
  || match hay with
     | EmptyString => false
     | String _ rest => includes needle rest
     end.

(** The component state of [StudentDashboard]: the part the handlers of
    the session use, and the loading flags and the error banner. *)
Record Page := {
  core : StudentDashboard.State;
  loadingTest : bool;
  checkingStatus : bool;
  error : option string
}.

Definition setCore (st : StudentDashboard.State) (pg : Page) : Page :=
  {| core := st; loadingTest := loadingTest pg;
     checkingStatus := checkingStatus pg; error := error pg |}.

Definition setLoadingTest (b : bool) (pg : Page) : Page :=
  {| core := core pg; loadingTest := b;
     checkingStatus := checkingStatus pg; error := error pg |}.

Definition setCheckingStatus (b : bool) (pg : Page) : Page :=
  {| core := core pg; loadingTest := loadingTest pg;
     checkingStatus := b; error := error pg |}.

Definition setError (e : option string) (pg : Page) : Page :=
  {| core := core pg; loadingTest := loadingTest pg;
     checkingStatus := checkingStatus pg; error := e |}.

Definition setQuestions (qs : list Question) (st : StudentDashboard.State)
  : StudentDashboard.State :=
  {| StudentDashboard.session := StudentDashboard.session st;
     StudentDashboard.questions := qs;
     StudentDashboard.answers := StudentDashboard.answers st;
     StudentDashboard.currentQuestionIndex :=
       StudentDashboard.currentQuestionIndex st;
     StudentDashboard.isSubmitted := StudentDashboard.isSubmitted st;
     StudentDashboard.isSubmitting := StudentDashboard.isSubmitting st;
     StudentDashboard.hasLoggedTestStart :=
       StudentDashboard.hasLoggedTestStart st |}.

Definition setSession (s : TestSession) (st : StudentDashboard.State)
  : StudentDashboard.State :=
  {| StudentDashboard.session := Some s;
     StudentDashboard.questions := StudentDashboard.questions st;
     StudentDashboard.answers := StudentDashboard.answers st;
     StudentDashboard.currentQuestionIndex :=
       StudentDashboard.currentQuestionIndex st;
     StudentDashboard.isSubmitted := StudentDashboard.isSubmitted st;
     StudentDashboard.isSubmitting := StudentDashboard.isSubmitting st;
     StudentDashboard.hasLoggedTestStart :=
       StudentDashboard.hasLoggedTestStart st |}.

(** [session?.test_id], as a condition. *)
Definition has_test (st : StudentDashboard.State) : bool :=
  match StudentDashboard.session st with
  | Some s => truthy (test_id s)
  | None => false
  end.

(** The map [fetchTestContent] builds from the rows it read:
    [answersData.forEach(ans => newAnswers.set(...))]. *)
Definition answersFromRows (rows : list StudentAnswer) : gmap string nat :=
  fold_left
    (fun m ans => <[question_id ans := selected_option_index ans]> m)
    rows ∅.

(** What the store answers to the query for the questions of the test:
    the rows, or an error. *)
Inductive QuestionsReply :=
| QuestionRows (rows : list Question)
| QuestionsError (message : string).

(** [fetchTestContent]. *)
Definition fetchTestContent (user_id : string)
    (questionsReply : QuestionsReply) (answersFault : Fault)
    (db : Database) (pg : Page) : Page * list Effect :=
  if negb (has_test (core pg)) then (pg, [])
  else
    let pg1 := setLoadingTest true pg in
    let '(pg2, eff2) :=
      match questionsReply with
      | QuestionsError message =>
          (if includes "does not exist" message
           then setError (Some "Database error: The 'questions' table is missing. Please inform the administrator.") pg1
           else pg1,
           [ConsoleError ("Error fetching questions: " +:+ message)])
      | QuestionRows questionsData =>
          (setCore (setQuestions questionsData (core pg1)) pg1, [])
      end in
    let '(pg3, eff3) :=
      match answersFault with
      | Some message =>
          (if includes "does not exist" message
           then setError (Some "Database error: The 'student_answers' table is missing. Please inform the administrator.") pg2
           else pg2,
           [ConsoleError ("Error fetching answers: " +:+ message)])
      | None =>
          let newAnswers :=
            answersFromRows (StudentDashboard.fetchAnswers user_id db) in
          (setCore (StudentDashboard.setAnswers newAnswers (core pg2)) pg2,
           [])
      end in
    (setLoadingTest false pg3, eff2 ++ eff3).

(** The error of [maybeSingle()] when the query matches several
    rows. *)
Definition multiple_rows : string :=
  "JSON object requested, multiple (or no) rows returned".

(** [checkSubmissionStatus]. *)
Definition checkSubmissionStatus (user_id : string) (fault : Fault)
    (db : Database) (pg : Page) : Page * list Effect :=
  if negb (has_test (core pg)) then (setCheckingStatus false pg, [])
  else
    let pg1 := setCheckingStatus true pg in
    let dbError :=
      match fault with
      | Some message => Some message
      | None =>
          match StudentDashboard.fetchSubmissions user_id db with
          | _ :: _ :: _ => Some multiple_rows
          | _ => None
          end
      end in
    let '(pg2, eff) :=
      match dbError with
      | Some message =>
          if includes "does not exist" message
          then (setError (Some "Database error: The 'student_submissions' table is missing. Please inform the administrator.") pg1, [])
          else (pg1,
                [ConsoleError ("Error checking submission status: "
                               +:+ message)])
      | None =>
          match StudentDashboard.fetchSubmissions user_id db with
          | [] => (pg1, [])
          | _ :: _ =>
              (setCore (StudentDashboard.setIsSubmitted true (core pg1)) pg1,
               [])
          end
      end in
    (setCheckingStatus false pg2, eff).

(** What [renderContent] returns. *)
Inductive View :=
| ViewSpinner
| ViewReport
| ViewTest
| ViewPaused
| ViewWaiting.

Definition setHasLoggedTestStart (b : bool) (st : StudentDashboard.State)
  : StudentDashboard.State :=
  {| StudentDashboard.session := StudentDashboard.session st;
     StudentDashboard.questions := StudentDashboard.questions st;
     StudentDashboard.answers := StudentDashboard.answers st;
     StudentDashboard.currentQuestionIndex :=
       StudentDashboard.currentQuestionIndex st;
     StudentDashboard.isSubmitted := StudentDashboard.isSubmitted st;
     StudentDashboard.isSubmitting := StudentDashboard.isSubmitting st;
     StudentDashboard.hasLoggedTestStart := b |}.

(** [renderContent]: the view, and the page after the render (the
    first render of the test area logs the start and sets the
    [hasLoggedTestStart] ref). *)
Definition renderContent (pg : Page) : View * Page * list Effect :=
  match StudentDashboard.session (core pg) with
  | None => (ViewSpinner, pg, [])
  | Some s =>
      if checkingStatus pg then (ViewSpinner, pg, [])
      else
        match status s with
        | started =>
            if StudentDashboard.isSubmitted (core pg)
            then (ViewReport, pg, [])
            else if loadingTest pg then (ViewSpinner, pg, [])
            else if StudentDashboard.hasLoggedTestStart (core pg)
            then (ViewTest, pg, [])
            else (ViewTest,
                  setCore (setHasLoggedTestStart true (core pg)) pg,
                  [Audit "student_started_test"])
        | paused => (ViewPaused, pg, [])
        | finished => (ViewReport, pg, [])
        | waiting =>
            if StudentDashboard.isSubmitted (core pg)
            then (ViewReport, pg, [])
            else (ViewWaiting, pg, [])
        end
  end.

(** What the store answers to the read of the session row. *)
Inductive SessionReply :=
| SessionRow (row : TestSession)
| NoRow
| SessionError (errorMessage : string).

(** [fetchTestSession] of the student page; [errorMessage] is the
    text the handler extracts from the error it caught. *)
Definition fetchTestSession (reply : SessionReply) (pg : Page)
  : Page * list Effect :=
  let pg1 := setError None pg in
  match reply with
  | SessionRow row => (setCore (setSession row (core pg1)) pg1, [])
  | NoRow => (setCore (setSession default_session (core pg1)) pg1, [])
  | SessionError errorMessage =>
      let shown :=
        if String.eqb errorMessage "" then "An unknown error occurred"
        else errorMessage in
      let pg2 :=
        setError
          (Some ("Connection issue detected: " +:+ shown
                 +:+ ". Displaying last known status.")) pg1 in
      (match StudentDashboard.session (core pg2) with
       | Some _ => pg2
       | None => setCore (setSession default_session (core pg2)) pg2
       end,
       [ConsoleError ("Error fetching test session: " +:+ errorMessage)])
  end.

End StudentPage.

(** ** Auxiliary definitions for the statements on the student page *)

(** The predicate of [fetchAnswers] on a table, and the fold of
    [answersFromRows] from a given map. *)
Definition user_rows (user : string) (t : list StudentAnswer)
  : list StudentAnswer :=
  List.filter (fun a => String.eqb (student_id a) user
                        && String.eqb (session_id a) active_session) t.

Definition fold_answers (m : gmap string nat) (rows : list StudentAnswer)
  : gmap string nat :=
  fold_left
    (fun m ans => <[question_id ans := selected_option_index ans]> m)
    rows m.

(** ** The test editor (pages/AdminDashboard.tsx, [TestEditorModal]) *)

Module TestEditorModal.

(** A [Partial<Question>] of the editor: questions loaded from the
    store carry their [id] and [test_id], new ones do not. *)
Record EditorQuestion := {
  eq_id : option string;
  eq_test_id : option string;
  eq_question_text : string;
  eq_options : list QuestionOption
}.

Definition blankOption (correct : bool) : QuestionOption :=
  {| text := ""; isCorrect := correct |}.

(** The question list the editor opens with for a new test. *)
Definition initialQuestions : list EditorQuestion :=
  [{| eq_id := None; eq_test_id := None; eq_question_text := "";
      eq_options := [blankOption false; blankOption false;
                     blankOption false; blankOption false] |}].

(** The handlers copy the array and then write into the question
    object at the index; an index outside the array makes the write
    throw a [TypeError], which is [None] here.  The value of the new
    state is the one modelled; that the old array shares the written
    objects is not. *)
Definition handleQuestionChange (index : nat) (value : string)
    (questions : list EditorQuestion) : option (list EditorQuestion) :=
  match questions !! index with
  | Some q =>
      Some (<[index := {| eq_id := eq_id q; eq_test_id := eq_test_id q;
                          eq_question_text := value;
                          eq_options := eq_options q |}]> questions)
  | None => None
  end.

Definition handleOptionChange (qIndex oIndex : nat) (value : string)
    (questions : list EditorQuestion) : option (list EditorQuestion) :=
  match questions !! qIndex with
  | Some q =>
      match eq_options q !! oIndex with
      | Some o =>
          Some (<[qIndex :=
                    {| eq_id := eq_id q; eq_test_id := eq_test_id q;
                       eq_question_text := eq_question_text q;
                       eq_options :=
                         <[oIndex := {| text := value;
                                        isCorrect := isCorrect o |}]>
                           (eq_options q) |}]> questions)
      | None => None
      end
  | None => None
  end.

(** [options.forEach((opt, idx) => { opt.isCorrect = idx === oIndex })],
    with [idx] counted from [from]. *)
Fixpoint markCorrect (from oIndex : nat) (opts : list QuestionOption)
  : list QuestionOption :=
  match opts with
  | [] => []
  | o :: rest =>
      {| text := text o; isCorrect := Nat.eqb from oIndex |}
      :: markCorrect (S from) oIndex rest
  end.

Definition handleCorrectOptionChange (qIndex oIndex : nat)
    (questions : list EditorQuestion) : option (list EditorQuestion) :=
  match questions !! qIndex with
  | Some q =>
      Some (<[qIndex :=
                {| eq_id := eq_id q; eq_test_id := eq_test_id q;
                   eq_question_text := eq_question_text q;
                   eq_options := markCorrect 0 oIndex (eq_options q) |}]>
              questions)
  | None => None
  end.

Definition addQuestion (questions : list EditorQuestion)
  : list EditorQuestion :=
  questions
  ++ [{| eq_id := None; eq_test_id := None; eq_question_text := "";
         eq_options := [blankOption true; blankOption false;
                        blankOption false; blankOption false] |}].

(** [questions.filter((_, i) => i !== index)], with [i] counted from
    [from]. *)
Fixpoint filterOtherIndex (from index : nat) (questions : list EditorQuestion)
  : list EditorQuestion :=
  match questions with
  | [] => []
  | q :: rest =>
      if negb (Nat.eqb from index)
      then q :: filterOtherIndex (S from) index rest
      else filterOtherIndex (S from) index rest
  end.

Definition removeQuestion (index : nat) (questions : list EditorQuestion)
  : list EditorQuestion :=
  filterOtherIndex 0 index questions.

(** The actions of the editor on its question list. *)
Inductive Action :=
| QuestionChange (index : nat) (value : string)
| OptionChange (qIndex oIndex : nat) (value : string)
| CorrectOptionChange (qIndex oIndex : nat)
| AddQuestion
| RemoveQuestion (index : nat).

Definition act (a : Action) (questions : list EditorQuestion)
  : option (list EditorQuestion) :=
  match a with
  | QuestionChange i v => handleQuestionChange i v questions
  | OptionChange qi oi v => handleOptionChange qi oi v questions
  | CorrectOptionChange qi oi => handleCorrectOptionChange qi oi questions
  | AddQuestion => Some (addQuestion questions)
  | RemoveQuestion i => Some (removeQuestion i questions)
  end.

(** A sequence of actions; it stops at the first one that throws. *)
Fixpoint acts (l : list Action) (questions : list EditorQuestion)
  : option (list EditorQuestion) :=
  match l with
  | [] => Some questions
  | a :: rest =>
      match act a questions with
      | Some questions' => acts rest questions'
      | None => None
      end
  end.

(** How many options of a question are marked correct. *)
Definition correctCount (q : EditorQuestion) : nat :=
  length (List.filter isCorrect (eq_options q)).

End TestEditorModal.

(** ** Profiles (types.ts) *)

Inductive Role := admin | student.

Record Profile := {
  Profile_id : string;
  full_name : string;
  university_id : string;
  email : string;
  role : Role
}.

(** ** Live progress (pages/AdminDashboard.tsx, [LiveStudentStatus]) *)

Module LiveStudentStatus.

Record StudentStatus := {
  profile : Profile;
  answered : nat;
  total : nat
}.

(** The loop over the answer rows:
    [answersByStudent.set(id, (answersByStudent.get(id) || 0) + 1)]. *)
Definition answersByStudent (student_ids : list string) : gmap string nat :=
  fold_left
    (fun m sid => <[sid := (default 0%nat (m !! sid) + 1)%nat]> m)
    student_ids ∅.

(** The rows of
    [from('student_answers').select('student_id').eq('session_id',
    'active_session')]. *)
Definition answerRows (db : Database) : list string :=
  student_id
    <$> List.filter (fun a => String.eqb (session_id a) active_session)
          (student_answers db).

Section FetchData.

(** The order of [Array.prototype.sort] under [localeCompare] on the
    full names is the locale's; the sort is taken as given, and what is
    used of it is that it permutes its input. *)
Variable sortByName : list StudentStatus -> list StudentStatus.

(** [fetchData]: [profiles] and [questionIds] are the rows the store
    returns for the students and for the questions of the test;
    [fault] is an error thrown by one of the queries, which leaves the
    list as it was. *)
Definition fetchData (session : option TestSession) (fault : Fault)
    (profiles : list Profile) (questionIds : list string) (db : Database)
    (statuses : list StudentStatus) : list StudentStatus :=
  match fault with
  | Some _ => statuses
  | None =>
      if negb (match session with
               | Some s => truthy (test_id s)
               | None => false
               end)
         || AdminDashboard.status_is session waiting
         || AdminDashboard.status_is session finished
      then
        sortByName
          ((fun p => {| profile := p; answered := 0; total := 0 |})
             <$> profiles)
      else
        let total := length questionIds in
        let counts := answersByStudent (answerRows db) in
        sortByName
          ((fun p => {| profile := p;
                        answered := default 0%nat (counts !! Profile_id p);
                        total := total |})
             <$> profiles)
  end.

End FetchData.

End LiveStudentStatus.

(** ** Results (pages/AdminDashboard.tsx, [ResultsAnalytics]) *)

Module ResultsAnalytics.

(** The rows of the answers query of [fetchResults]:
    [.eq('session_id', 'active_session').in('question_id',
    questionIds)]. *)
Definition answerRows (questions : list Question) (db : Database)
  : list StudentAnswer :=
  List.filter
    (fun a => String.eqb (session_id a) active_session
              && existsb (String.eqb (question_id a))
                         (Question_id <$> questions))
    (student_answers db).

(** [participatingStudentIds]: the students with a submission row of
    the session. *)
Definition participatingStudentIds (db : Database) : gset string :=
  list_to_set
    (sub_student_id
       <$> List.filter
             (fun r => String.eqb (sub_session_id r) active_session)
             (student_submissions db)).

(** The map of maps built by the [forEach] over the answer rows. *)
Definition answersByStudent (answers : list StudentAnswer)
  : gmap string (gmap string nat) :=
  fold_left
    (fun m ans =>
       <[student_id ans :=
           <[question_id ans := selected_option_index ans]>
             (default ∅ (m !! student_id ans))]> m)
    answers ∅.

(** The score of one student: the loop over
    [answersByStudent.get(student.id) || new Map()], which counts as
    [ReportSummary] does. *)
Definition score (questions : list Question)
    (byStudent : gmap string (gmap string nat)) (student_id : string) : nat :=
  let studentAnswers := default ∅ (byStudent !! student_id) in
  StudentDashboard.correctAnswers questions studentAnswers.

(** A cell of the [optionsCount] array: a number, [NaN], or a hole
    left by a write beyond the end. *)
Inductive Cell := Num (n : nat) | NaN | Hole.

(** [optionsCount[selectedIndex]++]: a number is incremented;
    [undefined] and [NaN] give [NaN]; a write beyond the end extends
    the array. *)
Definition increment (c : Cell) : Cell :=
  match c with
  | Num n => Num (S n)
  | NaN | Hole => NaN
  end.

Definition bump (selectedIndex : nat) (optionsCount : list Cell) : list Cell :=
  match optionsCount !! selectedIndex with
  | Some c => <[selectedIndex := increment c]> optionsCount
  | None =>
      optionsCount
      ++ replicate (selectedIndex - length optionsCount) Hole ++ [NaN]
  end.

Record Stats := {
  correct : nat;
  incorrect : nat;
  noAnswer : nat;
  optionsCount : list Cell
}.

(** One student in the loop of the question breakdown. *)
Definition countStudent (question : Question)
    (participating : gset string)
    (byStudent : gmap string (gmap string nat))
    (stats : Stats) (student : Profile) : Stats :=
  if decide (Profile_id student ∈ participating) then
    match byStudent !! Profile_id student ≫= (.!! Question_id question) with
    | Some selectedIndex =>
        let counts := bump selectedIndex (optionsCount stats) in
        if match options question !! selectedIndex with
           | Some o => isCorrect o
           | None => false
           end
        then {| correct := S (correct stats); incorrect := incorrect stats;
                noAnswer := noAnswer stats; optionsCount := counts |}
        else {| correct := correct stats; incorrect := S (incorrect stats);
                noAnswer := noAnswer stats; optionsCount := counts |}
    | None =>
        {| correct := correct stats; incorrect := incorrect stats;
           noAnswer := S (noAnswer stats);
           optionsCount := optionsCount stats |}
    end
  else stats.

(** The statistics of one question over the listed students. *)
Definition questionStats (question : Question) (students : list Profile)
    (participating : gset string)
    (byStudent : gmap string (gmap string nat)) : Stats :=
  fold_left (countStudent question participating byStudent) students
    {| correct := 0; incorrect := 0; noAnswer := 0;
       optionsCount := replicate (length (options question)) (Num 0) |}.

End ResultsAnalytics.

(** ** Auxiliary definitions for the statements on the results *)

(** The answer rows of the session written by one student. *)
Definition rows_of_student (sid : string) (db : Database)
  : list StudentAnswer :=
  List.filter (fun a => String.eqb (session_id a) active_session
                        && String.eqb (student_id a) sid)
              (student_answers db).

(** The sum of the numbers held by an [optionsCount] array. *)
Definition cellSum (cells : list ResultsAnalytics.Cell) : nat :=
  fold_right
    (fun c acc => match c with
                  | ResultsAnalytics.Num n => (n + acc)%nat
                  | _ => acc
                  end) 0%nat cells.

Definition isNum (c : ResultsAnalytics.Cell) : Prop :=
  match c with
  | ResultsAnalytics.Num _ => True
  | _ => False
  end.

Definition stats_total (s : ResultsAnalytics.Stats) : nat :=
  (ResultsAnalytics.correct s + ResultsAnalytics.incorrect s
   + ResultsAnalytics.noAnswer s)%nat.

(** The option index of the last row of [rows] that satisfies [p],
    [acc] when there is none. *)
Definition lastFrom (p : StudentAnswer -> bool) (acc : option nat)
    (rows : list StudentAnswer) : option nat :=
  fold_left
    (fun acc a => if p a then Some (selected_option_index a) else acc)
    rows acc.

(** ** Changing name and password
    (pages/AdminDashboard.tsx, [ProfileModal]; pages/StudentDashboard.tsx,
    [ProfileManagement]) *)

(** A password as the sequence of its UTF-16 code units, which is what
    [.length] counts and [!==] compares. *)
Definition Password := list N.

(** What the account holds at the identity provider and in the
    [profiles] table. *)
Record Account := {
  acc_full_name : string;
  acc_password : Password
}.

Module ProfileModal.

Inductive Outcome :=
| Rejected (text : string)
| Thrown (message : string)
| Saved.

Inductive Notice :=
| LogProfileUpdated (updated_name updated_password : bool)
| AlertUpdated
| CloseModal.

(** [handleSave]: [profile_full_name] is the name in the props,
    [fullName], [password] and [confirmPassword] are the fields of the
    form; [profileFault] and [authFault] are the errors of the two
    updates, when they fail. *)
Definition handleSave (profile_full_name fullName : string)
    (password confirmPassword : Password)
    (profileFault authFault : Fault) (acc : Account)
  : Account * Outcome * list Notice :=
  let nonEmpty := negb (Nat.eqb (length password) 0) in
  if nonEmpty && negb (bool_decide (password = confirmPassword))
  then (acc, Rejected "Passwords do not match.", [])
  else if nonEmpty && (length password <? 6)%nat
  then (acc, Rejected "Password must be at least 6 characters long.", [])
  else
    let nameStep :=
      if negb (String.eqb fullName profile_full_name)
      then match profileFault with
           | Some message => inr message
           | None =>
               inl ({| acc_full_name := fullName;
                       acc_password := acc_password acc |}, true)
           end
      else inl (acc, false) in
    match nameStep with
    | inr message => (acc, Thrown message, [])
    | inl (acc1, updated_name) =>
        let passwordStep :=
          if nonEmpty
          then match authFault with
               | Some message => inr message
               | None =>
                   inl ({| acc_full_name := acc_full_name acc1;
                           acc_password := password |}, true)
               end
          else inl (acc1, false) in
        match passwordStep with
        | inr message => (acc1, Thrown message, [])
        | inl (acc2, updated_password) =>
            (acc2, Saved,
             (if updated_name || updated_password
              then [LogProfileUpdated updated_name updated_password]
              else [])
             ++ [AlertUpdated; CloseModal])
        end
    end.

End ProfileModal.

Module ProfileManagement.

Inductive Outcome :=
| Rejected (text : string)
| Failed (message : string)
| Updated.

(** [handlePasswordUpdate] of the student page: the account, the
    outcome shown in the form, the two password fields afterwards, and
    whether the audit event was logged. *)
Definition handlePasswordUpdate (password confirmPassword : Password)
    (fault : Fault) (acc : Account)
  : Account * Outcome * (Password * Password) * bool :=
  if negb (bool_decide (password = confirmPassword))
  then (acc, Rejected "Passwords do not match.",
        (password, confirmPassword), false)
  else if (length password <? 6)%nat
  then (acc, Rejected "Password must be at least 6 characters long.",
        (password, confirmPassword), false)
  else
    match fault with
    | Some message =>
        (acc, Failed message, (password, confirmPassword), false)
    | None =>
        ({| acc_full_name := acc_full_name acc; acc_password := password |},
         Updated, ([], []), true)
    end.

End ProfileManagement.

(** ** Importing a test (pages/AdminDashboard.tsx, [TestManagement]) *)

Module TestManagement.

(** A value of [JSON.parse].  An object is the list of its keys with
    their values, every key once. *)
#[warnings="-register-all"] Inductive Json :=
| JNull
| JBool (b : bool)
| JNumber (q : QArith_base.Q)
| JString (s : string)
| JArray (items : list Json)
| JObject (fields : list (string * Json)).

Definition is_null (v : Json) : bool :=
  match v with
  | JNull => true
  | _ => false
  end.

(** [v.key] for a value [v] other than [null] and the keys the handler
    reads: the value an object has for the key, and [undefined]
    ([None]) for an object without the key, a boolean, a number, a
    string or an array. *)
Definition prop (v : Json) (key : string) : option Json :=
  match v with
  | JObject fields => snd <$> find (fun kv => String.eqb kv.1 key) fields
  | _ => None
  end.

(** Truthiness of a parsed value or [undefined]. *)
Definition truthy_value (v : option Json) : bool :=
  match v with
  | None | Some JNull => false
  | Some (JBool b) => b
  | Some (JNumber q) =>
      negb (QArith_base.Qeq_bool q (QArith_base.inject_Z 0))
  | Some (JString s) => negb (String.eqb s "")
  | Some (JArray _) | Some (JObject _) => true
  end.

(** A row of the [tests] table as the import writes it. *)
Record TestRow := {
  row_id : string;
  row_title : Json;
  row_description : Json;
  row_created_by : string
}.

(** A row of the [questions] table as the import writes it; a key
    whose value is [undefined] is left out of the payload ([None]). *)
Record QuestionRow := {
  qrow_id : string;
  qrow_test_id : string;
  qrow_question_text : option Json;
  qrow_options : option Json
}.

Record Catalog := {
  cat_tests : list TestRow;
  cat_questions : list QuestionRow
}.

(** What the file reader and [JSON.parse] hand over: no text, a text
    on which [JSON.parse] throws, or the parsed value. *)
Inductive FileContent :=
| NotText
| BadJson (message : string)
| Parsed (data : Json).

(** An error returned by the store: the handler shows its message
    only when it is an [Error] object. *)
Record StoreError := {
  se_message : string;
  se_isError : bool
}.

Definition shown (e : StoreError) : string :=
  if se_isError e then se_message e
  else "An unknown error occurred during import.".

(** [questions.map((_, i) => i)] style numbering of a list. *)
Fixpoint indexed {A} (from : nat) (l : list A) : list (nat * A) :=
  match l with
  | [] => []
  | x :: rest => (from, x) :: indexed (S from) rest
  end.

(** The row [data.questions.map] builds of entry [q], which is not
    [null]. *)
Definition questionToInsert (testId : string) (newQuestionId : nat -> string)
    (iq : nat * Json) : QuestionRow :=
  {| qrow_id := newQuestionId iq.1;
     qrow_test_id := testId;
     qrow_question_text := prop iq.2 "question_text";
     qrow_options := prop iq.2 "options" |}.

(** The [onload] callback of [handleFileImport].  [newTestId] and
    [newQuestionId] are the ids the store generates for the rows it
    inserts; [nullRead key] is the message of the [TypeError] that
    reading [key] of [null] raises; [testFault], [questionsFault] and
    [deleteFault] are the errors of the three calls, when they fail.
    The result is the catalog, the [importError] shown, and the audit
    event logged.

    Reading [q.question_text] of a [null] entry throws inside [map],
    after the [tests] insert and outside the branch that rolls it
    back. *)
Definition handleFileImport (user_id : string) (content : FileContent)
    (newTestId : string) (newQuestionId : nat -> string)
    (nullRead : string -> string)
    (testFault questionsFault : option StoreError) (deleteFault : Fault)
    (c : Catalog) : Catalog * option string * list Effect :=
  match content with
  | NotText => (c, Some "Could not read file content.", [])
  | BadJson message => (c, Some message, [])
  | Parsed JNull => (c, Some (nullRead "title"), [])
  | Parsed data =>
      match prop data "title", prop data "questions" with
      | Some title, Some (JArray questions) =>
          if truthy_value (Some title) then
            match testFault with
            | Some e => (c, Some (shown e), [])
            | None =>
                let row :=
                  {| row_id := newTestId; row_title := title;
                     row_description :=
                       if truthy_value (prop data "description")
                       then default (JString "") (prop data "description")
                       else JString "";
                     row_created_by := user_id |} in
                let c1 := {| cat_tests := cat_tests c ++ [row];
                             cat_questions := cat_questions c |} in
                if existsb is_null questions then
                  (c1, Some (nullRead "question_text"), [])
                else
                  let questionsToInsert :=
                    questionToInsert newTestId newQuestionId
                      <$> indexed 0 questions in
                  match questionsFault with
                  | Some e =>
                      (match deleteFault with
                       | Some _ => c1
                       | None =>
                           {| cat_tests :=
                                List.filter
                                  (fun t =>
                                     negb (String.eqb (row_id t) newTestId))
                                  (cat_tests c1);
                              cat_questions := cat_questions c1 |}
                       end,
                       Some (shown e), [])
                  | None =>
                      ({| cat_tests := cat_tests c1;
                          cat_questions :=
                            cat_questions c1 ++ questionsToInsert |},
                       None, [Audit "test_imported"])
                  end
            end
          else (c, Some "Invalid JSON format.", [])
      | _, _ => (c, Some "Invalid JSON format.", [])
      end
  end.

End TestManagement.

(** * Properties *)


(** ** Helper facts *)

Lemma or_zero_id (x : Z) : or_zero x = x.
Proof. unfold or_zero. destruct (Z.eqb_spec x 0); lia. Qed.

Lemma Status_eqb_eq (a b : Status) : Status_eqb a b = true <-> a = b.
Proof. destruct a, b; simpl; split; congruence. Qed.

Lemma Status_eqb_refl (a : Status) : Status_eqb a a = true.
Proof. now destruct a. Qed.

Lemma floor_seconds_mono (a b : Z) : a <= b -> floor_seconds a <= floor_seconds b.
Proof. intros H. unfold floor_seconds. apply Z.div_le_mono; lia. Qed.

Lemma floor_seconds_bounds (a : Z) :
  a - 1000 < 1000 * floor_seconds a <= a.
Proof.
  unfold floor_seconds.
  pose proof (Z.mul_div_le a 1000 ltac:(lia)).
  pose proof (Z.mul_succ_div_gt a 1000 ltac:(lia)). lia.
Qed.

Lemma round_seconds_bounds (a : Z) :
  a - 500 < 1000 * round_seconds a <= a + 500.
Proof.
  unfold round_seconds.
  pose proof (Z.mul_div_le (a + 500) 1000 ltac:(lia)).
  pose proof (Z.mul_succ_div_gt (a + 500) 1000 ltac:(lia)). lia.
Qed.

Lemma round_seconds_whole (k : Z) : round_seconds (1000 * k) = k.
Proof.
  unfold round_seconds. symmetry.
  apply (Z.div_unique _ _ _ 500); lia.
Qed.

(** Both pages compute the same countdown from the same snapshot. *)
Lemma timeLeft_agree (s : TestSession) (now : Z) :
  AdminDashboard.timeLeft (Some s) now = StudentDashboard.timeLeft s now.
Proof.
  unfold AdminDashboard.timeLeft, StudentDashboard.timeLeft,
    StudentDashboard.calculateTimeLeft.
  destruct (Status_eqb (status s) started), (start_time s); try reflexivity;
    destruct (duration_minutes s) as [d|]; cbn [to_number];
    try destruct (Z.eqb_spec d 0); lia.
Qed.

Lemma timeLeft_started (s : TestSession) (start now : Z) :
  status s = started -> start_time s = Some start ->
  StudentDashboard.timeLeft s now =
  Z.max 0 (to_number (duration_minutes s) * 60
           - (floor_seconds (now - start) - total_paused_duration_seconds s)).
Proof.
  intros Hst Hstart. unfold StudentDashboard.timeLeft.
  rewrite Hst, Hstart. simpl.
  unfold StudentDashboard.calculateTimeLeft. now rewrite or_zero_id.
Qed.

Lemma timeLeft_antitone (s : TestSession) (now1 now2 : Z) :
  now1 <= now2 ->
  StudentDashboard.timeLeft s now2 <= StudentDashboard.timeLeft s now1.
Proof.
  intros Hle. unfold StudentDashboard.timeLeft,
    StudentDashboard.calculateTimeLeft.
  destruct (Status_eqb (status s) started), (start_time s) as [start|];
    try lia.
  - pose proof (floor_seconds_mono (now1 - start) (now2 - start)). lia.
  - destruct (last_paused_at s) as [p|]; [lia|].
    pose proof (floor_seconds_mono (now1 - start) (now2 - start)). lia.
Qed.

Lemma timeLeft_frozen (s : TestSession) (now1 now2 : Z) :
  status s <> started -> last_paused_at s <> None ->
  StudentDashboard.timeLeft s now1 = StudentDashboard.timeLeft s now2.
Proof.
  intros Hst Hp. unfold StudentDashboard.timeLeft.
  destruct (Status_eqb (status s) started) eqn:E.
  - apply Status_eqb_eq in E. contradiction.
  - destruct (start_time s); [|reflexivity].
    destruct (last_paused_at s); [reflexivity|contradiction].
Qed.

(** *** One click on a fresh snapshot *)

Lemma click_start (c : Click) (db : Database) :
  click_status c = started ->
  id (session_row db) = active_session ->
  status (session_row db) = waiting \/ status (session_row db) = finished ->
  truthy (or_else (click_selectedTestId c) (test_id (session_row db))) = true ->
  click c db = with_row (started_row c (session_row db)) db.
Proof.
  intros Hc Hid Hst Hsel. unfold click. rewrite Hc.
  unfold button_enabled, handleControlAction, buildUpdates, status_is.
  cbn [panel_of session selectedTestId tests duration].
  assert (Status_eqb (status (session_row db)) started = false) as ->
    by (destruct Hst as [-> | ->]; reflexivity).
  assert (Status_eqb (status (session_row db)) paused = false) as ->
    by (destruct Hst as [-> | ->]; reflexivity).
  cbn [negb]. rewrite Hsel.
  unfold started_row.
  destruct (or_else (click_selectedTestId c) (test_id (session_row db)))
    as [tid|] eqn:E; [|discriminate].
  cbn [fst]. unfold Db.update_session, with_row. rewrite Hid.
  cbn. f_equal. unfold apply_updates. cbn.
  f_equal.
  - exact Hid.
  - unfold or_else in E.
    destruct (truthy (click_selectedTestId c)) eqn:T; [|reflexivity].
    now destruct (click_selectedTestId c).
  - now destruct (find _ (click_tests c)).
Qed.

Lemma click_pause (c : Click) (db : Database) :
  click_status c = paused ->
  id (session_row db) = active_session ->
  status (session_row db) = started ->
  click c db =
  with_row (apply_updates
              {| upd_status := paused; upd_test_id := None;
                 upd_duration_minutes := None; upd_start_time := None;
                 upd_test_title := None;
                 upd_last_paused_at := Some (Some (click_at c));
                 upd_total_paused_duration_seconds := None |}
              (session_row db)) db.
Proof.
  intros Hc Hid Hst. unfold click. rewrite Hc.
  unfold button_enabled, handleControlAction, buildUpdates, status_is.
  rewrite Hst. cbn. unfold Db.update_session, with_row. now rewrite Hid.
Qed.

Lemma click_resume (c : Click) (db : Database) (pausedAt : Z) :
  click_status c = started ->
  id (session_row db) = active_session ->
  status (session_row db) = paused ->
  last_paused_at (session_row db) = Some pausedAt ->
  click c db =
  with_row (apply_updates
              {| upd_status := started; upd_test_id := None;
                 upd_duration_minutes := None; upd_start_time := None;
                 upd_test_title := None;
                 upd_last_paused_at := Some None;
                 upd_total_paused_duration_seconds :=
                   Some (total_paused_duration_seconds (session_row db)
                         + round_seconds (click_at c - pausedAt)) |}
              (session_row db)) db.
Proof.
  intros Hc Hid Hst Hp. unfold click. rewrite Hc.
  unfold button_enabled, handleControlAction, buildUpdates, status_is.
  cbn [panel_of session selectedTestId tests duration].
  rewrite Hst, Hp. cbn. unfold Db.update_session, with_row.
  now rewrite Hid, or_zero_id.
Qed.

Lemma click_finish (c : Click) (db : Database) :
  click_status c = finished ->
  id (session_row db) = active_session ->
  status (session_row db) = started \/ status (session_row db) = paused ->
  click c db = with_row (apply_updates (only_status finished) (session_row db)) db.
Proof.
  intros Hc Hid Hst. unfold click. rewrite Hc.
  unfold button_enabled, handleControlAction, buildUpdates, status_is.
  destruct Hst as [-> | ->]; cbn; unfold Db.update_session, with_row;
    now rewrite Hid.
Qed.

Lemma click_reset (c : Click) (db : Database) :
  click_status c = waiting -> click c db = Db.reset_test_session db.
Proof. intros Hc. unfold click. now rewrite Hc. Qed.

Lemma click_disabled (c : Click) (db : Database) :
  button_enabled (Some (session_row db)) (click_status c) = false ->
  click c db = db.
Proof. intros H. unfold click. now rewrite H. Qed.

Lemma click_start_aborted (c : Click) (db : Database) :
  click_status c = started ->
  status (session_row db) = waiting \/ status (session_row db) = finished ->
  truthy (or_else (click_selectedTestId c) (test_id (session_row db))) = false ->
  click c db = db.
Proof.
  intros Hc Hst Hsel. unfold click. rewrite Hc.
  unfold button_enabled, handleControlAction, buildUpdates, status_is.
  cbn [panel_of session selectedTestId tests duration].
  assert (Status_eqb (status (session_row db)) started = false) as ->
    by (destruct Hst as [-> | ->]; reflexivity).
  assert (Status_eqb (status (session_row db)) paused = false) as ->
    by (destruct Hst as [-> | ->]; reflexivity).
  cbn [negb]. rewrite Hsel.
  now destruct (or_else (click_selectedTestId c) (test_id (session_row db))).
Qed.

Lemma run_app (cs1 cs2 : list Click) (db : Database) :
  run (cs1 ++ cs2) db = run cs2 (run cs1 db).
Proof. unfold run. apply fold_left_app. Qed.

Lemma run_cons (c : Click) (cs : list Click) (db : Database) :
  run (c :: cs) db = run cs (click c db).
Proof. reflexivity. Qed.

Ltac solve_inv :=
  unfold session_inv; cbn; repeat split;
  first [assumption | discriminate | congruence | tauto].

Ltac click_is_disabled Hc S :=
  rewrite click_disabled
    by (rewrite Hc; unfold button_enabled, status_is; now rewrite S);
  rewrite <- S in *; solve_inv.

Lemma click_inv (c : Click) (db : Database) :
  session_inv (session_row db) -> session_inv (session_row (click c db)).
Proof.
  intros (Hid & Hp & Hn).
  destruct (click_status c) eqn:Hc.
  - rewrite click_reset by assumption. solve_inv.
  - destruct (status (session_row db)) eqn:S.
    + destruct (truthy (or_else (click_selectedTestId c)
                                (test_id (session_row db)))) eqn:T.
      * rewrite click_start by (rewrite ?S; auto). solve_inv.
      * rewrite click_start_aborted by (rewrite ?S; auto).
        rewrite <- S in *. solve_inv.
    + click_is_disabled Hc S.
    + destruct (last_paused_at (session_row db)) as [pausedAt|] eqn:P;
        [|now destruct Hp].
      rewrite (click_resume c db pausedAt) by assumption. solve_inv.
    + destruct (truthy (or_else (click_selectedTestId c)
                                (test_id (session_row db)))) eqn:T.
      * rewrite click_start by (rewrite ?S; auto). solve_inv.
      * rewrite click_start_aborted by (rewrite ?S; auto).
        rewrite <- S in *. solve_inv.
  - destruct (status (session_row db)) eqn:S;
      try click_is_disabled Hc S.
    rewrite click_pause by assumption. solve_inv.
  - destruct (status (session_row db)) eqn:S;
      try click_is_disabled Hc S.
    + rewrite click_finish by (rewrite ?S; auto). unfold session_inv. cbn.
      repeat split; [assumption | discriminate |].
      intros H. apply Hn in H. destruct H; discriminate.
    + rewrite click_finish by (rewrite ?S; auto). solve_inv.
Qed.

Lemma run_inv (cs : list Click) (db : Database) :
  session_inv (session_row db) -> session_inv (session_row (run cs db)).
Proof.
  revert db. induction cs as [|c cs IH]; intros db H; [exact H|].
  rewrite run_cons. apply IH, click_inv, H.
Qed.

Lemma initial_inv : session_inv (session_row initial_db).
Proof. repeat split; [discriminate | cbn; congruence]. Qed.

(** ** Timeline accounting *)

(** The Start, Pause, Resume run of the scenario, from bootstrap. *)
Lemma scenario_row (T0 : Z) (catalog : list Test) (sel : option string) :
  truthy sel = true ->
  let r := session_row
             (run [press started T0 catalog sel 1;
                   press paused (T0 + 10000) catalog sel 1;
                   press started (T0 + 40000) catalog sel 1] initial_db) in
  status r = started /\ start_time r = Some T0 /\ duration_minutes r = Some 1
  /\ last_paused_at r = None /\ total_paused_duration_seconds r = 30.
Proof.
  intros Hsel r. subst r. rewrite !run_cons.
  rewrite (click_start (press started T0 catalog sel 1) initial_db);
    try reflexivity; try (left; reflexivity);
    [| unfold or_else, press; cbn [click_selectedTestId];
       rewrite Hsel; exact Hsel].
  rewrite (click_pause (press paused (T0 + 10000) catalog sel 1))
    by reflexivity.
  rewrite (click_resume (press started (T0 + 40000) catalog sel 1) _
             (T0 + 10000)) by reflexivity.
  cbn [run fold_left with_row session_row apply_updates status start_time
       duration_minutes last_paused_at total_paused_duration_seconds
       upd_status upd_start_time upd_duration_minutes upd_last_paused_at
       upd_total_paused_duration_seconds default started_row press
       click_duration click_at from_option].
  replace (T0 + 40000 - (T0 + 10000)) with 30000 by lia.
  repeat split; reflexivity.
Qed.

(** C1.  On a snapshot with status [started] and a start time, both
    pages compute [max 0 (durationSeconds - (floor ((now - startTime) /
    1000) - pausedAccumulatedSeconds))]; and with a duration of one
    minute, Start at [T0], Pause at [T0 + 10 s], Resume at [T0 + 40 s],
    the net elapsed time read at [T0 + 50 s] is 20 and the remaining
    time is 40. *)
Theorem remaining_time_while_started
    (s : TestSession) (start now T0 : Z) (catalog : list Test)
    (sel : option string) :
  status s = started -> start_time s = Some start -> truthy sel = true ->
  StudentDashboard.timeLeft s now
  = Z.max 0 (to_number (duration_minutes s) * 60
             - ((now - start) / 1000 - total_paused_duration_seconds s))
  /\ AdminDashboard.timeLeft (Some s) now
     = Z.max 0 (to_number (duration_minutes s) * 60
                - ((now - start) / 1000 - total_paused_duration_seconds s))
  /\ let r := session_row
                (run [press started T0 catalog sel 1;
                      press paused (T0 + 10000) catalog sel 1;
                      press started (T0 + 40000) catalog sel 1] initial_db) in
     status r = started /\ start_time r = Some T0
     /\ to_number (duration_minutes r) * 60 = 60
     /\ StudentDashboard.netElapsedSeconds r T0 (T0 + 50000) = 20
     /\ StudentDashboard.timeLeft r (T0 + 50000) = 40
     /\ AdminDashboard.timeLeft (Some r) (T0 + 50000) = 40.
Proof.
  intros Hst Hstart Hsel.
  split; [|split].
  - now apply timeLeft_started.
  - rewrite timeLeft_agree. now apply timeLeft_started.
  - intros r.
    destruct (scenario_row T0 catalog sel Hsel) as (Rst & Rstart & Rdur & _ & Rtot).
    fold r in Rst, Rstart, Rdur, Rtot.
    assert (Hnet : StudentDashboard.netElapsedSeconds r T0 (T0 + 50000) = 20).
    { unfold StudentDashboard.netElapsedSeconds. rewrite Rtot, or_zero_id.
      replace (T0 + 50000 - T0) with 50000 by lia. reflexivity. }
    assert (Hleft : StudentDashboard.timeLeft r (T0 + 50000) = 40).
    { rewrite (timeLeft_started r T0) by assumption.
      rewrite Rdur, Rtot. replace (T0 + 50000 - T0) with 50000 by lia.
      reflexivity. }
    repeat split; try assumption.
    + rewrite Rdur. reflexivity.
    + rewrite timeLeft_agree. exact Hleft.
Qed.

Lemma remaining_time_while_started_witness :
  let s := {| id := active_session; test_id := Some "t1"; status := started;
              duration_minutes := Some 1; start_time := Some 0;
              test_title := Some "Quiz"; last_paused_at := None;
              total_paused_duration_seconds := 30 |} in
  StudentDashboard.timeLeft s 50000 = 40
  /\ AdminDashboard.timeLeft (Some s) 50000 = 40.
Proof.
  intros s.
  destruct (remaining_time_while_started s 0 50000 0 [] (Some "t1")
              eq_refl eq_refl eq_refl) as (H1 & H2 & _).
  split; [rewrite H1 | rewrite H2]; reflexivity.
Defined.

(** After Start at 0 and Finish at 10 s the countdown still follows the
    wall clock: 40 at 20 s, 30 at 30 s. *)
Lemma finished_countdown_follows_clock :
  let s := session_row
             (run [press started 0 [] (Some "t1") 1;
                   press finished 10000 [] (Some "t1") 1] initial_db) in
  status s = finished
  /\ StudentDashboard.timeLeft s 20000 = 40
  /\ StudentDashboard.timeLeft s 30000 = 30
  /\ StudentDashboard.timeLeft s 20000 <> StudentDashboard.timeLeft s 30000.
Proof. vm_compute. repeat split; congruence. Qed.

(** C6 (amended).  For a fixed snapshot the countdown never grows with
    the query instant, in particular while [started]; it does not
    depend on the query instant while [paused] or [finished] when
    [last_paused_at] is set, which holds in every paused state the panel
    reaches; a [finished] snapshot without [last_paused_at] is read
    against the wall clock and is only non-increasing.  The panel of the
    administrator shows the same value. *)
Theorem countdown_monotone_or_frozen
    (s : TestSession) (now1 now2 : Z) (cs : list Click) :
  now1 <= now2 ->
  (status s = started ->
   StudentDashboard.timeLeft s now2 <= StudentDashboard.timeLeft s now1)
  /\ (status s = paused \/ status s = finished ->
      last_paused_at s <> None ->
      StudentDashboard.timeLeft s now1 = StudentDashboard.timeLeft s now2)
  /\ (status s = finished -> last_paused_at s = None ->
      StudentDashboard.timeLeft s now2 <= StudentDashboard.timeLeft s now1)
  /\ (let r := session_row (run cs initial_db) in
      status r = paused ->
      StudentDashboard.timeLeft r now1 = StudentDashboard.timeLeft r now2)
  /\ AdminDashboard.timeLeft (Some s) now1 = StudentDashboard.timeLeft s now1
  /\ AdminDashboard.timeLeft (Some s) now2 = StudentDashboard.timeLeft s now2.
Proof.
  intros Hle. repeat split.
  - intros _. now apply timeLeft_antitone.
  - intros Hst Hp. apply timeLeft_frozen; [|assumption].
    destruct Hst as [-> | ->]; discriminate.
  - intros _ _. now apply timeLeft_antitone.
  - intros r Hst.
    destruct (run_inv cs initial_db initial_inv) as (_ & Hp & _).
    apply timeLeft_frozen; [congruence | auto].
  - apply timeLeft_agree.
  - apply timeLeft_agree.
Qed.

Lemma countdown_monotone_or_frozen_witness :
  let s := {| id := active_session; test_id := Some "t1"; status := paused;
              duration_minutes := Some 1; start_time := Some 0;
              test_title := Some "Quiz"; last_paused_at := Some 10000;
              total_paused_duration_seconds := 0 |} in
  20000 <= 30000
  /\ StudentDashboard.timeLeft s 20000 = StudentDashboard.timeLeft s 30000.
Proof.
  intros s. split; [lia|].
  destruct (countdown_monotone_or_frozen s 20000 30000 [] ltac:(lia))
    as (_ & H & _).
  apply H; [left; reflexivity | discriminate].
Defined.

(** ** The session state machine *)

(** Start, Pause, then Finish while paused: the row is [finished] and
    still carries the pause instant. *)
Lemma last_paused_at_survives_finish :
  let s := session_row
             (run [press started 0 [] (Some "t1") 1;
                   press paused 10000 [] (Some "t1") 1;
                   press finished 20000 [] (Some "t1") 1] initial_db) in
  status s = finished /\ last_paused_at s = Some 10000
  /\ ~ (last_paused_at s <> None <-> status s = paused).
Proof.
  vm_compute. repeat split; try reflexivity.
  intros [H _]. discriminate H. discriminate.
Qed.

Lemma click_finish_keeps_last_paused_at (c : Click) (db : Database) :
  click_status c = finished ->
  last_paused_at (session_row (click c db)) = last_paused_at (session_row db).
Proof.
  intros Hc. unfold click. rewrite Hc.
  destruct (button_enabled _ finished); [|reflexivity].
  cbn. unfold Db.update_session. cbn.
  now destruct (String.eqb _ _).
Qed.

(** C7 (amended).  In every state reached from bootstrap by Start,
    Pause, Resume, Finish and Reset, a [paused] row has [last_paused_at]
    set, and a row with [last_paused_at] set is [paused] or [finished];
    Finish writes the status only and leaves [last_paused_at] as it
    finds it, set after a Finish while paused and null after a Finish
    while started. *)
Theorem last_paused_at_invariant (cs : list Click) (c : Click) :
  let s := session_row (run cs initial_db) in
  (status s = paused -> last_paused_at s <> None)
  /\ (last_paused_at s <> None -> status s = paused \/ status s = finished)
  /\ (status s = started -> last_paused_at s = None)
  /\ (click_status c = finished ->
      last_paused_at (session_row (click c (run cs initial_db)))
      = last_paused_at s).
Proof.
  intros s.
  destruct (run_inv cs initial_db initial_inv) as (_ & Hp & Hn).
  fold s in Hp, Hn.
  repeat split; try assumption.
  - intros Hst. destruct (last_paused_at s) eqn:E; [|reflexivity].
    destruct Hn as [H | H]; congruence.
  - apply click_finish_keeps_last_paused_at.
Qed.

Lemma last_paused_at_invariant_witness :
  let cs := [press started 0 [] (Some "t1") 1;
             press paused 10000 [] (Some "t1") 1] in
  status (session_row (run cs initial_db)) = paused
  /\ last_paused_at (session_row (run cs initial_db)) <> None
  /\ last_paused_at
       (session_row (click (press finished 20000 [] None 1)
                           (run cs initial_db)))
     = last_paused_at (session_row (run cs initial_db)).
Proof.
  intros cs.
  destruct (last_paused_at_invariant cs (press finished 20000 [] None 1))
    as (H1 & _ & _ & H4).
  split; [reflexivity|]. split; [apply H1; reflexivity | apply H4; reflexivity].
Defined.

(** A Start pressed while the row is already [started] is written, and
    so is a Pause sent by a panel whose snapshot is stale (the row was
    reset meanwhile): neither call is rejected and both change the
    row. *)
Lemma illegal_transition_is_written :
  let running := {| id := active_session; test_id := Some "t1";
                    status := started; duration_minutes := Some 1;
                    start_time := Some 0; test_title := Some "Quiz";
                    last_paused_at := None;
                    total_paused_duration_seconds := 0 |} in
  let db := {| session_row := running; student_answers := [];
               student_submissions := [] |} in
  let p := {| tests := []; session := Some running;
              selectedTestId := None; duration := Num 1 |} in
  let '(db1, out1, _) := handleControlAction p started 5000 None db in
  let '(db2, out2, _) :=
    handleControlAction p paused 5000 None (Db.reset_test_session db) in
  out1 = UpdateSucceeded
  /\ session_row db1 <> session_row db
  /\ start_time (session_row db1) = Some 5000
  /\ button_enabled (session p) paused = true
  /\ status (session_row (Db.reset_test_session db)) = waiting
  /\ out2 = UpdateSucceeded
  /\ status (session_row db2) = paused
  /\ start_time (session_row db2) = None.
Proof. vm_compute. repeat split; congruence. Qed.

Lemma button_enabled_legal (s : TestSession) (newStatus : Status) :
  button_enabled (Some s) newStatus
  = spec_legal_transition (status s) newStatus.
Proof. unfold button_enabled, status_is. now destruct newStatus, (status s). Qed.

(** C3 (amended).  [handleControlAction] never looks at the status of
    the row it writes: Pause and Finish always build a payload, a
    payload once built is written over the row selected by its id
    alone, whatever status that row has, and the call ends in success
    with the requested status stored.  Transitions from an illegal
    source status are kept out by the buttons of the panel only, each
    enabled exactly when the transition is legal from the status of the
    snapshot the panel holds. *)
Theorem transitions_guarded_by_buttons_only
    (p : Panel) (s : TestSession) (newStatus : Status) (now : Z)
    (db : Database) (u : SessionUpdates) :
  (session p = Some s ->
   button_enabled (session p) newStatus
   = spec_legal_transition (status s) newStatus)
  /\ (newStatus = paused \/ newStatus = finished ->
      buildUpdates p newStatus now <> None)
  /\ (newStatus <> waiting ->
      buildUpdates p newStatus now = Some u ->
      id (session_row db) = active_session ->
      handleControlAction p newStatus now None db
      = (with_row (apply_updates u (session_row db)) db,
         UpdateSucceeded, [Audit (auditAction p newStatus)])
      /\ status (session_row (handleControlAction p newStatus now None db).1.1)
         = newStatus).
Proof.
  split; [|split].
  - intros ->. apply button_enabled_legal.
  - intros [-> | ->]; discriminate.
  - intros Hw Hu Hid.
    assert (Hs : upd_status u = newStatus).
    { destruct newStatus; [contradiction| | |];
        unfold buildUpdates in Hu.
      - destruct (status_is (session p) paused).
        + destruct (session p) as [s0|]; [|now inversion Hu].
          destruct (last_paused_at s0); now inversion Hu.
        + destruct (or_else _ _) as [tid|]; [|discriminate].
          destruct (truthy (Some tid)); now inversion Hu.
      - now inversion Hu.
      - now inversion Hu. }
    assert (E : handleControlAction p newStatus now None db
                = (with_row (apply_updates u (session_row db)) db,
                   UpdateSucceeded, [Audit (auditAction p newStatus)])).
    { unfold handleControlAction.
      destruct newStatus; [contradiction| | |]; rewrite Hu;
        unfold Db.update_session, with_row; now rewrite Hid. }
    split; [exact E|]. rewrite E. exact Hs.
Qed.

Lemma transitions_guarded_by_buttons_only_witness :
  let stale := {| id := active_session; test_id := Some "t1";
                  status := started; duration_minutes := Some 1;
                  start_time := Some 0; test_title := Some "Quiz";
                  last_paused_at := None;
                  total_paused_duration_seconds := 0 |} in
  let p := {| tests := []; session := Some stale;
              selectedTestId := None; duration := Num 1 |} in
  button_enabled (session p) paused = true
  /\ status (session_row
               (handleControlAction p paused 5000 None initial_db).1.1)
     = paused.
Proof.
  intros stale p.
  destruct (transitions_guarded_by_buttons_only p stale paused 5000 initial_db
              {| upd_status := paused; upd_test_id := None;
                 upd_duration_minutes := None; upd_start_time := None;
                 upd_test_title := None;
                 upd_last_paused_at := Some (Some 5000);
                 upd_total_paused_duration_seconds := None |})
    as (H1 & _ & H3).
  split.
  - rewrite (H1 eq_refl). reflexivity.
  - apply H3; [discriminate | reflexivity | reflexivity].
Defined.




(** ** Reset *)

Lemma filter_excluded {A} (keep drop : A -> bool) (l : list A) :
  (forall x, keep x = true -> drop x = true) ->
  List.filter keep (List.filter (fun x => negb (drop x)) l) = [].
Proof.
  intros H. induction l as [|x l IH]; [reflexivity|].
  cbn. destruct (drop x) eqn:D; cbn; [exact IH|].
  destruct (keep x) eqn:K; [|exact IH].
  apply H in K. congruence.
Qed.

Lemma no_answers_after_reset (user : string) (db : Database) :
  StudentDashboard.fetchAnswers user (Db.reset_test_session db) = [].
Proof.
  unfold StudentDashboard.fetchAnswers. cbn.
  apply (filter_excluded _ (fun a => String.eqb (session_id a) active_session)).
  intros x H. now apply andb_true_iff in H.
Qed.

Lemma no_submissions_after_reset (user : string) (db : Database) :
  StudentDashboard.fetchSubmissions user (Db.reset_test_session db) = [].
Proof.
  unfold StudentDashboard.fetchSubmissions. cbn.
  apply (filter_excluded _
           (fun r => String.eqb (sub_session_id r) active_session)).
  intros x H. unfold same_submission_key in H.
  apply andb_true_iff in H as [H _]. cbn in H.
  now rewrite String.eqb_sym.
Qed.

(** C4.  The reset issued by [handleControlAction], from any status,
    is one step of the store that leaves the row [waiting] with
    [test_id], [start_time], [last_paused_at] null, the paused total 0
    and the title at its default, and leaves no answer and no submission
    row keyed by the session; a Start pressed next gives a [started] row
    with a paused total of 0 while still no answer or submission row is
    visible to any student, and a student page that receives the
    [waiting] snapshot drops its local answers and its submitted flag. *)
Theorem reset_clears_generation
    (p : Panel) (now : Z) (db : Database) (c : Click) (user : string)
    (st : StudentDashboard.State) :
  let res := handleControlAction p waiting now None db in
  let db1 := res.1.1 in
  let r1 := session_row db1 in
  res.1.2 = ResetSucceeded
  /\ db1 = Db.reset_test_session db
  /\ status r1 = waiting /\ test_id r1 = None /\ start_time r1 = None
  /\ last_paused_at r1 = None /\ total_paused_duration_seconds r1 = 0
  /\ test_title r1 = test_title default_session
  /\ (forall a, In a (student_answers db1) -> session_id a <> active_session)
  /\ (forall a, In a (student_submissions db1) ->
                sub_session_id a <> active_session)
  /\ (id (session_row db) = active_session ->
      click_status c = started ->
      truthy (click_selectedTestId c) = true ->
      let db2 := click c db1 in
      status (session_row db2) = started
      /\ start_time (session_row db2) = Some (click_at c)
      /\ total_paused_duration_seconds (session_row db2) = 0
      /\ StudentDashboard.fetchAnswers user db2 = []
      /\ StudentDashboard.fetchSubmissions user db2 = [])
  /\ (AdminDashboard.status_is (StudentDashboard.session st) waiting = false ->
      let st' := StudentDashboard.onSessionChange r1 st in
      StudentDashboard.answers st' = ∅
      /\ StudentDashboard.isSubmitted st' = false
      /\ StudentDashboard.isSubmitting st' = false
      /\ StudentDashboard.questions st' = []).
Proof.
  intros res db1 r1. subst r1 db1 res.
  change (handleControlAction p waiting now None db)
    with (Db.reset_test_session db, ResetSucceeded, [Audit "test_reset"]).
  cbn [fst snd].
  do 8 (split; [reflexivity|]).
  split; [|split; [|split]].
  - intros a Ha. apply filter_In in Ha as [_ Ha].
    intros E. rewrite E in Ha. discriminate.
  - intros a Ha. apply filter_In in Ha as [_ Ha].
    intros E. rewrite E in Ha. discriminate.
  - intros Hid Hc Hsel.
    rewrite click_start; try assumption; try reflexivity;
      [| now left | unfold or_else; now rewrite Hsel ].
    repeat split.
    + apply (no_answers_after_reset user db).
    + apply (no_submissions_after_reset user db).
  - intros Hw.
    unfold StudentDashboard.onSessionChange. unfold status_is in Hw.
    rewrite Hw. repeat split.
Qed.

Lemma reset_clears_generation_witness :
  let row := {| id := active_session; test_id := Some "t1";
                status := started; duration_minutes := Some 1;
                start_time := Some 0; test_title := Some "Quiz";
                last_paused_at := None;
                total_paused_duration_seconds := 12 |} in
  let db := {| session_row := row;
               student_answers := [answer_row "u1" "q1" 2];
               student_submissions :=
                 [{| sub_session_id := active_session;
                     sub_student_id := "u1" |}] |} in
  let p := {| tests := []; session := Some row; selectedTestId := None;
              duration := Num 1 |} in
  let c := press started 9000 [] (Some "t2") 1 in
  let st := {| StudentDashboard.session := Some row;
               StudentDashboard.questions := [];
               StudentDashboard.answers := {[ "q1" := 2%nat ]};
               StudentDashboard.currentQuestionIndex := 0%nat;
               StudentDashboard.isSubmitted := true;
               StudentDashboard.isSubmitting := true;
               StudentDashboard.hasLoggedTestStart := true |} in
  let db1 := (handleControlAction p waiting 8000 None db).1.1 in
  total_paused_duration_seconds (session_row (click c db1)) = 0
  /\ StudentDashboard.fetchAnswers "u1" (click c db1) = []
  /\ StudentDashboard.answers
       (StudentDashboard.onSessionChange (session_row db1) st) = ∅.
Proof.
  intros row db p c st db1.
  destruct (reset_clears_generation p 8000 db c "u1" st)
    as (_ & _ & _ & _ & _ & _ & _ & _ & _ & _ & Hstart & Hstudent).
  destruct (Hstart eq_refl eq_refl eq_refl) as (_ & _ & Htot & Hans & _).
  destruct (Hstudent eq_refl) as (Hloc & _).
  split; [exact Htot | split; [exact Hans | exact Hloc]].
Defined.

(** ** Answer capture *)

Lemma same_answer_key_refl (a : StudentAnswer) : same_answer_key a a = true.
Proof. unfold same_answer_key. now rewrite !String.eqb_refl. Qed.

Lemma same_answer_key_spec (a b : StudentAnswer) :
  same_answer_key a b = true
  <-> session_id a = session_id b /\ student_id a = student_id b
      /\ question_id a = question_id b.
Proof.
  unfold same_answer_key. rewrite !andb_true_iff, !String.eqb_eq. tauto.
Qed.

Lemma same_answer_key_sym (a b : StudentAnswer) :
  same_answer_key a b = same_answer_key b a.
Proof.
  unfold same_answer_key.
  now rewrite (String.eqb_sym (session_id a)),
    (String.eqb_sym (student_id a)), (String.eqb_sym (question_id a)).
Qed.

Lemma same_answer_key_cong (k r x : StudentAnswer) :
  same_answer_key k r = true -> same_answer_key k x = same_answer_key r x.
Proof.
  intros H. apply same_answer_key_spec in H as (H1 & H2 & H3).
  unfold same_answer_key. now rewrite H1, H2, H3.
Qed.

Lemma rows_with_key_cong (k r : StudentAnswer) (t : list StudentAnswer) :
  same_answer_key k r = true -> rows_with_key k t = rows_with_key r t.
Proof.
  intros H. unfold rows_with_key. apply filter_ext.
  intros x. now apply same_answer_key_cong.
Qed.

Lemma unique_answer_keys_tail (x : StudentAnswer) (t : list StudentAnswer) :
  unique_answer_keys (x :: t) -> unique_answer_keys t.
Proof.
  intros H k. specialize (H k). unfold rows_with_key in *. cbn in H.
  destruct (same_answer_key k x); cbn in H; lia.
Qed.

Lemma upsert_rows_same (r : StudentAnswer) (t : list StudentAnswer) :
  unique_answer_keys t -> rows_with_key r (Db.upsert_answer r t) = [r].
Proof.
  induction t as [|x t IH]; intros U.
  - unfold rows_with_key. cbn. now rewrite same_answer_key_refl.
  - cbn. destruct (same_answer_key x r) eqn:E.
    + unfold rows_with_key. cbn. rewrite same_answer_key_refl. f_equal.
      specialize (U r). unfold rows_with_key in U. cbn in U.
      rewrite same_answer_key_sym, E in U. cbn in U.
      destruct (List.filter (same_answer_key r) t); [reflexivity|].
      cbn in U. lia.
    + unfold rows_with_key. cbn. rewrite same_answer_key_sym, E.
      apply IH. now apply unique_answer_keys_tail in U.
Qed.

Lemma upsert_rows_other (k r : StudentAnswer) (t : list StudentAnswer) :
  same_answer_key k r = false ->
  rows_with_key k (Db.upsert_answer r t) = rows_with_key k t.
Proof.
  intros Hk. induction t as [|x t IH].
  - unfold rows_with_key. cbn. now rewrite Hk.
  - cbn. destruct (same_answer_key x r) eqn:E.
    + unfold rows_with_key. cbn. rewrite Hk.
      assert (same_answer_key k x = false) as ->; [|reflexivity].
      destruct (same_answer_key k x) eqn:F; [|reflexivity].
      rewrite (same_answer_key_cong k x r F) in Hk. congruence.
    + unfold rows_with_key in *. cbn. now rewrite IH.
Qed.

Lemma upsert_unique (r : StudentAnswer) (t : list StudentAnswer) :
  unique_answer_keys t -> unique_answer_keys (Db.upsert_answer r t).
Proof.
  intros U k. destruct (same_answer_key k r) eqn:E.
  - rewrite (rows_with_key_cong k r) by assumption.
    now rewrite upsert_rows_same.
  - rewrite upsert_rows_other by assumption. apply U.
Qed.

Lemma upsert_idempotent (r : StudentAnswer) (t : list StudentAnswer) :
  Db.upsert_answer r (Db.upsert_answer r t) = Db.upsert_answer r t.
Proof.
  induction t as [|x t IH]; cbn.
  - now rewrite same_answer_key_refl.
  - destruct (same_answer_key x r) eqn:E; cbn.
    + now rewrite same_answer_key_refl.
    + now rewrite E, IH.
Qed.

Lemma upsert_length_same_key (r r' : StudentAnswer) (t : list StudentAnswer) :
  same_answer_key r r' = true ->
  length (Db.upsert_answer r' (Db.upsert_answer r t))
  = length (Db.upsert_answer r t).
Proof.
  intros H. induction t as [|x t IH]; cbn.
  - now rewrite H.
  - destruct (same_answer_key x r) eqn:E; cbn.
    + now rewrite H.
    + rewrite same_answer_key_sym,
        <- (same_answer_key_cong r r' x H), same_answer_key_sym, E.
      cbn. now rewrite IH.
Qed.

(** Every table built by upserts alone has unique keys. *)
Lemma upserts_unique (rs : list StudentAnswer) :
  unique_answer_keys (fold_left (fun t r => Db.upsert_answer r t) rs []).
Proof.
  assert (G : forall t, unique_answer_keys t ->
            unique_answer_keys
              (fold_left (fun t r => Db.upsert_answer r t) rs t)).
  { induction rs as [|r rs IH]; intros t U; [exact U|].
    cbn. apply IH, upsert_unique, U. }
  apply G. intros k. cbn. lia.
Qed.

(** C5.  Two selections for the same question by the same student,
    both saved: the answer table holds exactly one row for the key, with
    the second option index; saving the same selection again changes
    nothing; no row is added by the second write, the rows of other keys
    are as they were, and keys stay unique. *)
Theorem recordAnswer_is_upsert
    (user q : string) (i1 i2 : nat) (st : StudentDashboard.State)
    (db : Database) :
  unique_answer_keys (student_answers db) ->
  let r1 := StudentDashboard.handleSelectOption user q i1 None st db in
  let r2 := StudentDashboard.handleSelectOption user q i2 None r1.1.1 r1.1.2 in
  let r3 := StudentDashboard.handleSelectOption user q i2 None r2.1.1 r2.1.2 in
  rows_with_key (answer_row user q i1) (student_answers r1.1.2)
  = [answer_row user q i1]
  /\ rows_with_key (answer_row user q i1) (student_answers r2.1.2)
     = [answer_row user q i2]
  /\ length (student_answers r2.1.2) = length (student_answers r1.1.2)
  /\ r3.1.2 = r2.1.2
  /\ unique_answer_keys (student_answers r2.1.2)
  /\ (forall k, same_answer_key k (answer_row user q i1) = false ->
                rows_with_key k (student_answers r2.1.2)
                = rows_with_key k (student_answers db)).
Proof.
  intros U r1 r2 r3. subst r3 r2 r1.
  unfold StudentDashboard.handleSelectOption. cbn [fst snd student_answers].
  fold (answer_row user q i1). fold (answer_row user q i2).
  assert (K : same_answer_key (answer_row user q i1) (answer_row user q i2)
              = true).
  { unfold same_answer_key. cbn. now rewrite !String.eqb_refl. }
  repeat split.
  - now apply upsert_rows_same.
  - rewrite (rows_with_key_cong _ _ _ K).
    apply upsert_rows_same. now apply upsert_unique.
  - now apply upsert_length_same_key.
  - cbn. now rewrite upsert_idempotent.
  - now apply upsert_unique, upsert_unique.
  - intros k Hk.
    assert (Hk2 : same_answer_key k (answer_row user q i2) = false).
    { rewrite <- Hk, (same_answer_key_sym k),
        (same_answer_key_sym k (answer_row user q i1)).
      symmetry. now apply same_answer_key_cong. }
    now rewrite (upsert_rows_other k _ _ Hk2), (upsert_rows_other k _ _ Hk).
Qed.

Lemma recordAnswer_is_upsert_witness :
  let st := {| StudentDashboard.session := None;
               StudentDashboard.questions := [];
               StudentDashboard.answers := ∅;
               StudentDashboard.currentQuestionIndex := 0%nat;
               StudentDashboard.isSubmitted := false;
               StudentDashboard.isSubmitting := false;
               StudentDashboard.hasLoggedTestStart := false |} in
  let db := {| session_row := session_row initial_db;
               student_answers :=
                 [answer_row "u1" "q1" 0; answer_row "u2" "q1" 3];
               student_submissions := [] |} in
  let r1 := StudentDashboard.handleSelectOption "u1" "q1" 1 None st db in
  let r2 := StudentDashboard.handleSelectOption "u1" "q1" 2 None r1.1.1 r1.1.2 in
  student_answers r2.1.2 = [answer_row "u1" "q1" 2; answer_row "u2" "q1" 3]
  /\ rows_with_key (answer_row "u1" "q1" 1) (student_answers r2.1.2)
     = [answer_row "u1" "q1" 2].
Proof.
  intros st db r1 r2. split; [reflexivity|].
  apply (recordAnswer_is_upsert "u1" "q1" 1 2 st db).
  exact (upserts_unique [answer_row "u1" "q1" 0; answer_row "u2" "q1" 3]).
Defined.

Lemma correctAnswers_insert (qs : list Question) (m : gmap string nat)
    (q : string) (i : nat) :
  m !! q = None ->
  StudentDashboard.correctAnswers qs (<[q := i]> m)
  = ((if StudentDashboard.countsAsCorrect qs (q, i) then 1 else 0)
     + StudentDashboard.correctAnswers qs m)%nat.
Proof.
  intros Hq. unfold StudentDashboard.correctAnswers.
  pose proof (map_to_list_insert m q i Hq) as P.
  assert (L : forall l1 l2 : list (string * nat), l1 ≡ₚ l2 ->
            length (List.filter (StudentDashboard.countsAsCorrect qs) l1)
            = length (List.filter (StudentDashboard.countsAsCorrect qs) l2)).
  { intros l1 l2 H. induction H; cbn.
    - reflexivity.
    - destruct (StudentDashboard.countsAsCorrect qs x); cbn; lia.
    - destruct (StudentDashboard.countsAsCorrect qs x),
        (StudentDashboard.countsAsCorrect qs y); reflexivity.
    - congruence. }
  rewrite (L _ _ P). cbn.
  now destruct (StudentDashboard.countsAsCorrect qs (q, i)).
Qed.

(** C10.  After [handleSelectOption] the local answers map holds the
    option chosen for the question, whether or not the upsert failed;
    when it failed the store is as it was (so no answer row was
    written) and only a console message is left, while a selection for
    a question not answered before raises the "Answered" count of the
    report by one and, when the option is the correct one, its
    "Correct Answers" count too. *)
Theorem selection_kept_when_save_fails
    (user q : string) (i : nat) (fault : Fault)
    (st : StudentDashboard.State) (db : Database) :
  let res := StudentDashboard.handleSelectOption user q i fault st db in
  let st' := res.1.1 in
  let db' := res.1.2 in
  StudentDashboard.answers st' !! q = Some i
  /\ StudentDashboard.questions st' = StudentDashboard.questions st
  /\ (forall message, fault = Some message ->
        db' = db
        /\ res.2 = [ConsoleError ("Error saving answer: " +:+ message)])
  /\ (StudentDashboard.answers st !! q = None ->
      StudentDashboard.answeredQuestions (StudentDashboard.answers st')
      = S (StudentDashboard.answeredQuestions (StudentDashboard.answers st))
      /\ (StudentDashboard.countsAsCorrect
            (StudentDashboard.questions st) (q, i) = true ->
          StudentDashboard.correctAnswers
            (StudentDashboard.questions st') (StudentDashboard.answers st')
          = S (StudentDashboard.correctAnswers
                 (StudentDashboard.questions st)
                 (StudentDashboard.answers st)))).
Proof.
  intros res st' db'.
  assert (E : st' = StudentDashboard.setAnswers
                      (<[q:=i]> (StudentDashboard.answers st)) st).
  { subst st' res. unfold StudentDashboard.handleSelectOption.
    now destruct fault. }
  rewrite E. cbn [StudentDashboard.setAnswers StudentDashboard.answers
                  StudentDashboard.questions].
  split; [|split; [|split]].
  - apply lookup_insert_eq.
  - reflexivity.
  - intros message ->. now split.
  - intros Hq. split.
    + unfold StudentDashboard.answeredQuestions.
      now apply map_size_insert_None.
    + intros Hc. rewrite correctAnswers_insert by assumption.
      now rewrite Hc.
Qed.

Lemma selection_kept_when_save_fails_witness :
  let qs := [{| Question_id := "q1"; Question_test_id := "t1";
                question_text := "2 + 2";
                options := [{| text := "3"; isCorrect := false |};
                            {| text := "4"; isCorrect := true |}] |}] in
  let st := {| StudentDashboard.session := None;
               StudentDashboard.questions := qs;
               StudentDashboard.answers := ∅;
               StudentDashboard.currentQuestionIndex := 0%nat;
               StudentDashboard.isSubmitted := false;
               StudentDashboard.isSubmitting := false;
               StudentDashboard.hasLoggedTestStart := false |} in
  let res := StudentDashboard.handleSelectOption "u1" "q1" 1
               (Some "network down") st initial_db in
  StudentDashboard.fetchAnswers "u1" res.1.2 = []
  /\ res.1.2 = initial_db
  /\ StudentDashboard.answeredQuestions (StudentDashboard.answers res.1.1)
     = 1%nat
  /\ StudentDashboard.correctAnswers qs (StudentDashboard.answers res.1.1)
     = 1%nat.
Proof.
  intros qs st res.
  destruct (selection_kept_when_save_fails "u1" "q1" 1 (Some "network down")
              st initial_db) as (_ & _ & Hf & Hn).
  destruct (Hf _ eq_refl) as [Hdb _].
  destruct (Hn eq_refl) as [Hans Hcor].
  split; [reflexivity|]. split; [exact Hdb|]. split; [exact Hans|].
  exact (Hcor eq_refl).
Defined.

(** ** Pause and Resume accounting *)

(** Start at 0, Pause at 2.499 s, Resume at 3.999 s: the pause of
    1.5 s is booked as 2 s, and right after the Resume the net elapsed
    time is 1 s although the test ran for 2.499 s. *)
Lemma resume_rounding_exceeds_one_second :
  let pairs := [(2499, 3999)] in
  let r := session_row
             (run (press started 0 [] (Some "t1") 1
                   :: pause_resume_clicks [] (Some "t1") 1 pairs)
                  initial_db) in
  status r = started
  /\ total_paused_duration_seconds r = 2
  /\ 1000 * total_paused_duration_seconds r <> 3999 - 2499
  /\ StudentDashboard.netElapsedSeconds r 0 3999 = 1
  /\ started_ms 0 pairs = 2499
  /\ ~ (Z.abs (1000 * StudentDashboard.netElapsedSeconds r 0 3999
               - started_ms 0 pairs) <= 1000).
Proof. vm_compute. repeat split; congruence. Qed.

Lemma gross_is_started_plus_paused (from : Z) (pairs : list (Z * Z)) :
  last_resume from pairs - from = started_ms from pairs + paused_ms pairs.
Proof.
  revert from. induction pairs as [|[p r] rest IH]; intros from; cbn.
  - lia.
  - specialize (IH r). lia.
Qed.

Lemma paused_seconds_bounds (pairs : list (Z * Z)) :
  paused_ms pairs - 500 * Z.of_nat (length pairs)
  <= 1000 * paused_seconds pairs
  <= paused_ms pairs + 500 * Z.of_nat (length pairs).
Proof.
  induction pairs as [|[p r] rest IH]; cbn [paused_ms paused_seconds length].
  - lia.
  - pose proof (round_seconds_bounds (r - p)). lia.
Qed.

Lemma paused_seconds_whole (pairs : list (Z * Z)) :
  Forall (fun pr => (pr.2 - pr.1) mod 1000 = 0) pairs ->
  1000 * paused_seconds pairs = paused_ms pairs.
Proof.
  induction 1 as [|[p r] rest H _ IH]; cbn [paused_ms paused_seconds].
  - reflexivity.
  - cbn in H. pose proof (Z_div_mod_eq_full (r - p) 1000) as D.
    rewrite H in D. rewrite D at 1.
    replace (1000 * ((r - p) / 1000) + 0) with (1000 * ((r - p) / 1000))
      by lia.
    rewrite round_seconds_whole. lia.
Qed.

Lemma run_pause_resume (catalog : list Test) (sel : option string) (dur : Z)
    (pairs : list (Z * Z)) (db : Database) :
  id (session_row db) = active_session ->
  status (session_row db) = started ->
  last_paused_at (session_row db) = None ->
  let r := session_row (run (pause_resume_clicks catalog sel dur pairs) db) in
  status r = started
  /\ last_paused_at r = None
  /\ start_time r = start_time (session_row db)
  /\ duration_minutes r = duration_minutes (session_row db)
  /\ total_paused_duration_seconds r
     = total_paused_duration_seconds (session_row db) + paused_seconds pairs.
Proof.
  revert db. induction pairs as [|[p r] rest IH]; intros db Hid Hst Hlp.
  - cbn. repeat split; try assumption; lia.
  - cbn [pause_resume_clicks]. rewrite !run_cons.
    rewrite (click_pause (press paused p catalog sel dur) db)
      by first [reflexivity | assumption].
    rewrite (click_resume (press started r catalog sel dur) _ p)
      by first [reflexivity | assumption].
    match goal with
    | |- context [run _ ?d] =>
        destruct (IH d) as (I1 & I2 & I3 & I4 & I5);
          [exact Hid | reflexivity | reflexivity |]
    end.
    cbn zeta. rewrite I1, I2, I3, I4, I5. cbn. repeat split. lia.
Qed.

(** C8 (amended).  A Resume issued on a [paused] snapshot with
    [last_paused_at] set adds the length of the pause rounded to the
    nearest whole second, [round ((now - last_paused_at) / 1000)], to the
    paused total and clears [last_paused_at].  Hence after [n]
    Pause/Resume pairs of one run the net elapsed time read at the last
    Resume differs from the time spent [started] by less than
    [1 + n / 2] seconds, and by less than one second when every pause
    lasts a whole number of seconds. *)
Theorem resume_folds_rounded_pause
    (p : Panel) (s : TestSession) (pausedAt now : Z) (db : Database)
    (T0 : Z) (pairs : list (Z * Z)) (catalog : list Test)
    (sel : option string) (dur : Z) :
  (session p = Some s -> status s = paused ->
   last_paused_at s = Some pausedAt ->
   id (session_row db) = active_session ->
   let r := session_row (handleControlAction p started now None db).1.1 in
   status r = started
   /\ last_paused_at r = None
   /\ total_paused_duration_seconds r
      = total_paused_duration_seconds s + round_seconds (now - pausedAt)
   /\ now - pausedAt - 500
      < 1000 * (total_paused_duration_seconds r
                - total_paused_duration_seconds s)
      <= now - pausedAt + 500)
  /\ (truthy sel = true ->
      let r := session_row
                 (run (press started T0 catalog sel dur
                       :: pause_resume_clicks catalog sel dur pairs)
                      initial_db) in
      let net := StudentDashboard.netElapsedSeconds r T0
                   (last_resume T0 pairs) in
      let n := Z.of_nat (length pairs) in
      status r = started
      /\ start_time r = Some T0
      /\ last_paused_at r = None
      /\ total_paused_duration_seconds r = paused_seconds pairs
      /\ - (1000 + 500 * n) < 1000 * net - started_ms T0 pairs <= 500 * n
      /\ (Forall (fun pr => (pr.2 - pr.1) mod 1000 = 0) pairs ->
          - 1000 < 1000 * net - started_ms T0 pairs <= 0)).
Proof.
  split.
  - intros Hs Hst Hp Hid r. subst r.
    unfold handleControlAction, buildUpdates, status_is.
    rewrite Hs, Hst, Hp. cbn. rewrite Hid. cbn. rewrite or_zero_id.
    repeat split; pose proof (round_seconds_bounds (now - pausedAt)); lia.
  - intros Hsel r net n. subst net r.
    rewrite run_cons.
    rewrite (click_start (press started T0 catalog sel dur) initial_db);
      try reflexivity; try (left; reflexivity);
      [| unfold or_else, press; cbn [click_selectedTestId];
         rewrite Hsel; exact Hsel].
    match goal with
    | |- context [run _ ?d] =>
        destruct (run_pause_resume catalog sel dur pairs d)
          as (I1 & I2 & I3 & I4 & I5); try reflexivity
    end.
    cbn [with_row session_row started_row start_time press click_at
         total_paused_duration_seconds] in I3, I5.
    unfold StudentDashboard.netElapsedSeconds.
    rewrite I5, or_zero_id. cbn zeta.
    pose proof (gross_is_started_plus_paused T0 pairs) as G.
    pose proof (floor_seconds_bounds (last_resume T0 pairs - T0)) as F.
    pose proof (paused_seconds_bounds pairs) as B.
    do 4 (split; [first [assumption | lia]|]).
    split; [lia|].
    intros W. apply paused_seconds_whole in W. lia.
Qed.

Lemma resume_folds_rounded_pause_witness :
  let s := {| id := active_session; test_id := Some "t1"; status := paused;
              duration_minutes := Some 1; start_time := Some 0;
              test_title := Some "Quiz"; last_paused_at := Some 10000;
              total_paused_duration_seconds := 0 |} in
  let db := {| session_row := s; student_answers := [];
               student_submissions := [] |} in
  let p := {| tests := []; session := Some s; selectedTestId := None;
              duration := Num 1 |} in
  total_paused_duration_seconds
    (session_row (handleControlAction p started 40000 None db).1.1) = 30
  /\ total_paused_duration_seconds
       (session_row
          (run (press started 0 [] (Some "t1") 1
                :: pause_resume_clicks [] (Some "t1") 1
                     [(10000, 40000); (50000, 51499)])
               initial_db)) = 31.
Proof.
  intros s db p.
  destruct (resume_folds_rounded_pause p s 10000 40000 db 0
              [(10000, 40000); (50000, 51499)] [] (Some "t1") 1)
    as [H1 H2].
  destruct (H1 eq_refl eq_refl eq_refl eq_refl) as (_ & _ & Ht & _).
  destruct (H2 eq_refl) as (_ & _ & _ & Hp & _).
  split; [rewrite Ht | rewrite Hp]; reflexivity.
Defined.

(** ** Final submission *)

Lemma existsb_filter_nil {A} (p : A -> bool) (l : list A) :
  existsb p l = false <-> List.filter p l = [].
Proof.
  induction l as [|x l IH]; cbn; [tauto|].
  destruct (p x); cbn; [split; discriminate | exact IH].
Qed.


Lemma same_submission_key_refl (r : StudentSubmission) :
  same_submission_key r r = true.
Proof. unfold same_submission_key. now rewrite !String.eqb_refl. Qed.

Lemma insert_fresh (user : string) (db : Database) :
  StudentDashboard.fetchSubmissions user db = [] ->
  let res := StudentDashboard.handleFinalSubmit_insert
               {| sub_session_id := active_session; sub_student_id := user |}
               None db in
  res.2 = DbOk
  /\ StudentDashboard.fetchSubmissions user res.1
     = [{| sub_session_id := active_session; sub_student_id := user |}].
Proof.
  intros H. unfold StudentDashboard.fetchSubmissions in H.
  apply existsb_filter_nil in H.
  unfold StudentDashboard.handleFinalSubmit_insert, Db.insert_submission.
  rewrite H. cbn -[same_submission_key]. split; [reflexivity|].
  unfold StudentDashboard.fetchSubmissions. cbn -[same_submission_key].
  rewrite List.filter_app. apply existsb_filter_nil in H. rewrite H.
  cbn -[same_submission_key]. now rewrite same_submission_key_refl.
Qed.

Lemma insert_taken (user : string) (db : Database) :
  StudentDashboard.fetchSubmissions user db <> [] ->
  StudentDashboard.handleFinalSubmit_insert
    {| sub_session_id := active_session; sub_student_id := user |} None db
  = (db, DbError duplicate_key).
Proof.
  intros H. unfold StudentDashboard.fetchSubmissions in H.
  unfold StudentDashboard.handleFinalSubmit_insert, Db.insert_submission.
  destruct (existsb _ (student_submissions db)) eqn:E.
  - now destruct db.
  - apply existsb_filter_nil in E. contradiction.
Qed.








(** * Further properties of the pages *)

(** ** The clock face *)

Lemma pad2_small (n : nat) :
  (n < 100)%nat ->
  String.length (Timer.padStart 2 (Timer.toString (Z.of_nat n))) = 2%nat.
Proof.
  intros H.
  assert (A : forallb (fun k => Nat.eqb
                (String.length
                   (Timer.padStart 2 (Timer.toString (Z.of_nat k)))) 2)
                (seq 0 100) = true) by (vm_compute; reflexivity).
  rewrite forallb_forall in A.
  apply Nat.eqb_eq, A, in_seq. lia.
Qed.

Lemma pad2_small_Z (x : Z) :
  0 <= x < 100 -> String.length (Timer.padStart 2 (Timer.toString x)) = 2%nat.
Proof.
  intros H. rewrite <- (Z2Nat.id x) by lia. apply pad2_small. lia.
Qed.

Lemma length_string_app (a b : string) :
  String.length (a +:+ b) = (String.length a + String.length b)%nat.
Proof. induction a as [|c a IH]; simpl; [reflexivity | now f_equal]. Qed.

(** X1.  For a non-negative number of seconds, the hours, minutes and
    seconds that [formatTime] prints add up to the input, with minutes
    and seconds below 60; below 100 hours the text is eight characters
    long. *)
Theorem formatTime_parts (seconds : Z) :
  0 <= seconds ->
  Timer.hours seconds * 3600 + Timer.minutes seconds * 60
  + Timer.secs seconds = seconds
  /\ 0 <= Timer.hours seconds
  /\ 0 <= Timer.minutes seconds < 60
  /\ 0 <= Timer.secs seconds < 60
  /\ (seconds < 360000 ->
      String.length (Timer.formatTime seconds) = 8%nat).
Proof.
  intros H. unfold Timer.formatTime.
  unfold Timer.hours, Timer.minutes, Timer.secs.
  rewrite !Z.rem_mod_nonneg by lia.
  assert (A : seconds / 3600 * 3600 + seconds mod 3600 / 60 * 60
              + seconds mod 60 = seconds
              /\ 0 <= seconds / 3600
              /\ 0 <= seconds mod 3600 / 60 < 60
              /\ 0 <= seconds mod 60 < 60
              /\ (seconds < 360000 -> seconds / 3600 < 100))
    by (Z.div_mod_to_equations; lia).
  destruct A as (A1 & A2 & A3 & A4 & A5).
  repeat split; try lia.
  intros Hlt. rewrite !length_string_app.
  rewrite !pad2_small_Z; [reflexivity | lia | lia | lia].
Qed.

Lemma formatTime_parts_witness :
  Timer.formatTime 3725 = "01:02:05"
  /\ Timer.hours 3725 * 3600 + Timer.minutes 3725 * 60 + Timer.secs 3725
     = 3725.
Proof.
  split; [reflexivity|].
  apply (formatTime_parts 3725). lia.
Defined.

(** ** The tick of the timer *)

Lemma calculateTimeLeft_zero (s : TestSession) (start now : Z) :
  StudentDashboard.calculateTimeLeft s start now <= 0
  <-> start + 1000 * (to_number (duration_minutes s) * 60
                      + total_paused_duration_seconds s) <= now.
Proof.
  unfold StudentDashboard.calculateTimeLeft. rewrite or_zero_id.
  pose proof (floor_seconds_bounds (now - start)). lia.
Qed.

(** X2.  A tick of the student timer calls [onTimeUp] exactly when the
    wall clock has reached the start time plus the duration plus the
    paused total; until then it shows the value of [calculateTimeLeft],
    and once it has fired it fires at every later instant. *)
Theorem time_up_deadline (s : TestSession) (start now later : Z) :
  let deadline :=
    start + 1000 * (to_number (duration_minutes s) * 60
                    + total_paused_duration_seconds s) in
  ((Timer.tick s start now).2 = true <-> deadline <= now)
  /\ (Timer.tick s start now).1
     = StudentDashboard.calculateTimeLeft s start now
  /\ (now <= later -> (Timer.tick s start now).2 = true ->
      (Timer.tick s start later).2 = true
      /\ (Timer.tick s start later).1 = 0).
Proof.
  intros deadline.
  assert (T : forall t, (Timer.tick s start t).2 = true <-> deadline <= t).
  { intros t. unfold Timer.tick, deadline.
    rewrite <- calculateTimeLeft_zero.
    destruct (Z.leb_spec (StudentDashboard.calculateTimeLeft s start t) 0);
      cbn; split; intros; try lia; try reflexivity; discriminate. }
  split; [apply T|]. split.
  - unfold Timer.tick.
    destruct (Z.leb_spec (StudentDashboard.calculateTimeLeft s start now) 0);
      cbn; [|reflexivity].
    unfold StudentDashboard.calculateTimeLeft in *. lia.
  - intros Hle Hf. apply T in Hf.
    assert (Hl : deadline <= later) by lia.
    split; [now apply T|].
    unfold deadline in Hl. apply calculateTimeLeft_zero in Hl.
    unfold Timer.tick.
    destruct (Z.leb_spec (StudentDashboard.calculateTimeLeft s start later) 0);
      [reflexivity | lia].
Qed.

Lemma time_up_deadline_witness :
  let s := {| id := active_session; test_id := Some "t1"; status := started;
              duration_minutes := Some 1; start_time := Some 0;
              test_title := Some "Quiz"; last_paused_at := None;
              total_paused_duration_seconds := 30 |} in
  Timer.tick s 0 89999 = (1, false)
  /\ Timer.tick s 0 90000 = (0, true)
  /\ (Timer.tick s 0 95000).2 = true.
Proof.
  intros s. split; [reflexivity|]. split; [reflexivity|].
  destruct (time_up_deadline s 0 90000 95000) as (_ & _ & H).
  apply H; [lia | reflexivity].
Defined.



(** ** Moving between questions *)

Lemma move_in_range (mv : Navigation.Move) (st : StudentDashboard.State) :
  (StudentDashboard.currentQuestionIndex st
   < length (StudentDashboard.questions st))%nat ->
  (StudentDashboard.currentQuestionIndex (Navigation.move mv st)
   < length (StudentDashboard.questions (Navigation.move mv st)))%nat
  /\ StudentDashboard.questions (Navigation.move mv st)
     = StudentDashboard.questions st
  /\ StudentDashboard.answers (Navigation.move mv st)
     = StudentDashboard.answers st.
Proof.
  intros H. destruct mv as [[|]|i]; cbn.
  - unfold Navigation.handleNavigate.
    destruct (Z.ltb_spec
                (Z.of_nat (StudentDashboard.currentQuestionIndex st))
                (Z.of_nat (length (StudentDashboard.questions st)) - 1));
      cbn; repeat split; lia.
  - unfold Navigation.handleNavigate.
    destruct (Z.ltb_spec 0
                (Z.of_nat (StudentDashboard.currentQuestionIndex st)));
      cbn; repeat split; lia.
  - unfold Navigation.handleJumpToQuestion.
    destruct (Z.leb_spec 0 i),
      (Z.ltb_spec i (Z.of_nat (length (StudentDashboard.questions st))));
      cbn; repeat split; lia.
Qed.

(** X4.  Whatever sequence of Next, Previous and jumps is made, the
    current question index stays inside the question list, and the
    questions and the answers are not touched. *)
Theorem navigation_stays_in_range
    (mvs : list Navigation.Move) (st : StudentDashboard.State) :
  (StudentDashboard.currentQuestionIndex st
   < length (StudentDashboard.questions st))%nat ->
  let st' := fold_left (fun s mv => Navigation.move mv s) mvs st in
  (StudentDashboard.currentQuestionIndex st'
   < length (StudentDashboard.questions st'))%nat
  /\ StudentDashboard.questions st' = StudentDashboard.questions st
  /\ StudentDashboard.answers st' = StudentDashboard.answers st.
Proof.
  revert st. induction mvs as [|mv mvs IH]; intros st H; cbn.
  - repeat split. exact H.
  - destruct (move_in_range mv st H) as (H1 & H2 & H3).
    destruct (IH _ H1) as (I1 & I2 & I3).
    repeat split; [exact I1 | congruence | congruence].
Qed.

Lemma navigation_stays_in_range_witness :
  let q := {| Question_id := "q1"; Question_test_id := "t1";
              question_text := "2 + 2"; options := [] |} in
  let st := {| StudentDashboard.session := None;
               StudentDashboard.questions := [q; q; q];
               StudentDashboard.answers := ∅;
               StudentDashboard.currentQuestionIndex := 1%nat;
               StudentDashboard.isSubmitted := false;
               StudentDashboard.isSubmitting := false;
               StudentDashboard.hasLoggedTestStart := false |} in
  let mvs := [Navigation.Step Navigation.next;
              Navigation.Step Navigation.next;
              Navigation.Jump 7; Navigation.Jump (-1)] in
  StudentDashboard.currentQuestionIndex
    (fold_left (fun s mv => Navigation.move mv s) mvs st) = 2%nat
  /\ (StudentDashboard.currentQuestionIndex
        (fold_left (fun s mv => Navigation.move mv s) mvs st)
      < length (StudentDashboard.questions
                  (fold_left (fun s mv => Navigation.move mv s) mvs st)))%nat.
Proof.
  intros q st mvs. split; [reflexivity|].
  apply (navigation_stays_in_range mvs st). cbn. lia.
Defined.

Lemma setCurrentQuestionIndex_same (st : StudentDashboard.State) :
  Navigation.setCurrentQuestionIndex
    (StudentDashboard.currentQuestionIndex st) st = st.
Proof. now destruct st. Qed.

(** X5.  Away from the last question Previous undoes Next; Next on the
    last question, Previous on the first one, and a jump outside the
    list leave the page as it is. *)
Theorem navigation_edges (st : StudentDashboard.State) (index : Z) :
  let i := StudentDashboard.currentQuestionIndex st in
  let len := length (StudentDashboard.questions st) in
  ((i + 1 < len)%nat ->
   Navigation.handleNavigate Navigation.prev
     (Navigation.handleNavigate Navigation.next st) = st)
  /\ ((len <= i + 1)%nat ->
      Navigation.handleNavigate Navigation.next st = st)
  /\ (i = 0%nat -> Navigation.handleNavigate Navigation.prev st = st)
  /\ (index < 0 \/ Z.of_nat len <= index ->
      Navigation.handleJumpToQuestion index st = st).
Proof.
  intros i len. subst i len. repeat split.
  - intros H. unfold Navigation.handleNavigate at 2.
    destruct (Z.ltb_spec
                (Z.of_nat (StudentDashboard.currentQuestionIndex st))
                (Z.of_nat (length (StudentDashboard.questions st)) - 1));
      [|lia].
    unfold Navigation.handleNavigate. cbn.
    destruct (Z.ltb_spec 0
                (Z.of_nat (StudentDashboard.currentQuestionIndex st + 1)));
      [|lia].
    destruct st as [s q a i sd sg hl]. cbn.
    unfold Navigation.setCurrentQuestionIndex. cbn.
    f_equal. lia.
  - intros H. unfold Navigation.handleNavigate.
    destruct (Z.ltb_spec
                (Z.of_nat (StudentDashboard.currentQuestionIndex st))
                (Z.of_nat (length (StudentDashboard.questions st)) - 1));
      [lia | reflexivity].
  - intros H. unfold Navigation.handleNavigate. now rewrite H.
  - intros H. unfold Navigation.handleJumpToQuestion.
    destruct (Z.leb_spec 0 index),
      (Z.ltb_spec index
         (Z.of_nat (length (StudentDashboard.questions st))));
      cbn; try reflexivity; lia.
Qed.

Lemma navigation_edges_witness :
  let q := {| Question_id := "q1"; Question_test_id := "t1";
              question_text := "2 + 2"; options := [] |} in
  let st := {| StudentDashboard.session := None;
               StudentDashboard.questions := [q; q];
               StudentDashboard.answers := ∅;
               StudentDashboard.currentQuestionIndex := 0%nat;
               StudentDashboard.isSubmitted := false;
               StudentDashboard.isSubmitting := false;
               StudentDashboard.hasLoggedTestStart := false |} in
  Navigation.handleNavigate Navigation.prev
    (Navigation.handleNavigate Navigation.next st) = st
  /\ Navigation.handleJumpToQuestion 2 st = st.
Proof.
  intros q st.
  destruct (navigation_edges st 2) as (H1 & _ & _ & H4).
  split; [apply H1; cbn; lia | apply H4; cbn; lia].
Defined.

(** ** The report *)

Lemma filter_keys_subset {A B} (f : A * B -> bool) (l : list (A * B)) (x : A) :
  x ∈ (List.filter f l).*1 -> x ∈ l.*1.
Proof.
  intros H. apply list_elem_of_fmap in H as ([a b] & -> & H).
  apply list_elem_of_In, filter_In in H as [H _].
  apply list_elem_of_fmap. exists (a, b). split; [reflexivity|].
  now apply list_elem_of_In.
Qed.

Lemma filter_keys_NoDup {A B} (f : A * B -> bool) (l : list (A * B)) :
  NoDup l.*1 -> NoDup (List.filter f l).*1.
Proof.
  induction l as [|a l IH]; cbn; intros H; [constructor|].
  apply NoDup_cons in H as [H1 H2].
  destruct (f a); cbn; [|now apply IH].
  apply NoDup_cons. split; [|now apply IH].
  intros Hin. apply H1. now apply (filter_keys_subset f).
Qed.

Lemma countsAsCorrect_known (qs : list Question) (e : string * nat) :
  StudentDashboard.countsAsCorrect qs e = true ->
  e.1 ∈ Question_id <$> qs.
Proof.
  unfold StudentDashboard.countsAsCorrect. intros H.
  destruct (find _ qs) as [q|] eqn:F; [|discriminate].
  apply find_some in F as [Hin Heq]. apply String.eqb_eq in Heq.
  apply list_elem_of_fmap. exists q. split; [now symmetry|].
  now apply list_elem_of_In.
Qed.

(** X6.  In the report the number of correct answers never exceeds the
    number of answered questions nor the number of questions, so the
    "Incorrect/Unanswered" cell is never negative. *)
Theorem report_counts_bounded (qs : list Question) (m : gmap string nat) :
  (StudentDashboard.correctAnswers qs m
   <= StudentDashboard.answeredQuestions m)%nat
  /\ (StudentDashboard.correctAnswers qs m
      <= ReportSummary.totalQuestions qs)%nat
  /\ 0 <= ReportSummary.incorrectOrUnanswered qs m.
Proof.
  assert (A : (StudentDashboard.correctAnswers qs m
               <= StudentDashboard.answeredQuestions m)%nat).
  { unfold StudentDashboard.correctAnswers,
      StudentDashboard.answeredQuestions.
    rewrite <- length_map_to_list. apply filter_length_le. }
  assert (B : (StudentDashboard.correctAnswers qs m
               <= ReportSummary.totalQuestions qs)%nat).
  { unfold StudentDashboard.correctAnswers, ReportSummary.totalQuestions.
    rewrite <- (length_fmap fst), <- (length_fmap Question_id qs).
    apply submseteq_length, NoDup_submseteq.
    - apply filter_keys_NoDup, NoDup_fst_map_to_list.
    - intros x Hx.
      apply list_elem_of_fmap in Hx as (e & -> & He).
      apply list_elem_of_In, filter_In in He as [_ He].
      now apply countsAsCorrect_known. }
  split; [exact A|]. split; [exact B|].
  unfold ReportSummary.incorrectOrUnanswered. lia.
Qed.

Lemma report_numbers_example :
  let qs := [{| Question_id := "q1"; Question_test_id := "t1";
                question_text := "2 + 2";
                options := [{| text := "3"; isCorrect := false |};
                            {| text := "4"; isCorrect := true |}] |}] in
  let m : gmap string nat := {[ "q1" := 1%nat; "q9" := 0%nat ]} in
  StudentDashboard.answeredQuestions m = 2%nat
  /\ StudentDashboard.correctAnswers qs m = 1%nat
  /\ ReportSummary.incorrectOrUnanswered qs m = 0.
Proof. vm_compute. repeat split. Qed.

(** ** Autosave and reload *)

Lemma fold_answers_insert (q : string) (v : nat) (rows : list StudentAnswer)
    (m : gmap string nat) :
  (forall a, In a rows -> question_id a <> q) ->
  fold_answers (<[q := v]> m) rows = <[q := v]> (fold_answers m rows).
Proof.
  revert m. induction rows as [|a rows IH]; intros m H; [reflexivity|].
  cbn. rewrite (insert_insert_ne m (question_id a) q).
  - apply IH. intros b Hb. apply H. now right.
  - apply H. now left.
Qed.

Lemma user_rows_other_question (user q : string) (i : nat)
    (t : list StudentAnswer) :
  rows_with_key (answer_row user q i) t = [] ->
  forall a, In a (user_rows user t) -> question_id a <> q.
Proof.
  intros H a Ha Hq. unfold user_rows in Ha.
  apply filter_In in Ha as [Hin Hp].
  apply andb_true_iff in Hp as [Hu Hs].
  apply String.eqb_eq in Hu, Hs.
  assert (K : In a (rows_with_key (answer_row user q i) t)).
  { unfold rows_with_key. apply filter_In. split; [exact Hin|].
    apply same_answer_key_spec. cbn. now rewrite Hu, Hs, Hq. }
  rewrite H in K. exact K.
Qed.

Lemma upsert_then_read (user q : string) (i : nat) (t : list StudentAnswer)
    (m : gmap string nat) :
  unique_answer_keys t ->
  fold_answers m (user_rows user (Db.upsert_answer (answer_row user q i) t))
  = <[q := i]> (fold_answers m (user_rows user t)).
Proof.
  revert m. induction t as [|x t IH]; intros m U.
  - cbn. now rewrite !String.eqb_refl.
  - cbn [Db.upsert_answer].
    destruct (same_answer_key x (answer_row user q i)) eqn:E.
    + assert (N : rows_with_key (answer_row user q i) t = []).
      { specialize (U (answer_row user q i)). unfold rows_with_key in *.
        cbn [List.filter] in U. rewrite same_answer_key_sym, E in U.
        destruct (List.filter _ t); [reflexivity | cbn in U; lia]. }
      apply same_answer_key_spec in E as (Es & Eu & Eq). cbn in Es, Eu, Eq.
      unfold user_rows. cbn [List.filter answer_row student_id session_id].
      rewrite Es, Eu, !String.eqb_refl. cbn [andb fold_answers fold_left].
      cbn [question_id selected_option_index]. rewrite Eq.
      fold (user_rows user t).
      change (fold_left _ (user_rows user t) ?a)
        with (fold_answers a (user_rows user t)).
      rewrite !fold_answers_insert
        by (now apply (user_rows_other_question user q i)).
      now rewrite insert_insert_eq.
    + unfold user_rows. cbn [List.filter].
      destruct (String.eqb (student_id x) user
                && String.eqb (session_id x) active_session);
        cbn [fold_answers fold_left]; apply IH;
        now apply unique_answer_keys_tail in U.
Qed.

(** X7.  A saved selection is what a reload reads back: after a
    successful [handleSelectOption] the map [fetchTestContent] rebuilds
    from the store is the previous one with the question set to the
    chosen option, so a page whose local answers agreed with the store
    still agrees with it, and reloading the test content gives back the
    local answers. *)
Theorem autosave_then_reload
    (user q : string) (i : nat) (st : StudentDashboard.State)
    (db : Database) (pg : StudentPage.Page) (qs : list Question) :
  unique_answer_keys (student_answers db) ->
  let res := StudentDashboard.handleSelectOption user q i None st db in
  let stored d :=
    StudentPage.answersFromRows (StudentDashboard.fetchAnswers user d) in
  stored res.1.2 = <[q := i]> (stored db)
  /\ stored res.1.2 !! q = Some i
  /\ (StudentDashboard.answers st = stored db ->
      StudentDashboard.answers res.1.1 = stored res.1.2)
  /\ (StudentPage.has_test (StudentPage.core pg) = true ->
      StudentDashboard.answers
        (StudentPage.core
           (StudentPage.fetchTestContent user (StudentPage.QuestionRows qs)
              None res.1.2 pg).1)
      = stored res.1.2).
Proof.
  intros U res stored.
  assert (E : stored res.1.2 = <[q := i]> (stored db)).
  { subst stored res. cbn.
    apply (upsert_then_read user q i (student_answers db) ∅ U). }
  split; [exact E|]. split; [rewrite E; apply lookup_insert_eq|].
  split.
  - intros Hs. rewrite E, <- Hs. reflexivity.
  - intros Ht. unfold StudentPage.fetchTestContent. rewrite Ht. reflexivity.
Qed.

Lemma autosave_then_reload_witness :
  let st := {| StudentDashboard.session := Some (session_row initial_db);
               StudentDashboard.questions := [];
               StudentDashboard.answers := {[ "q1" := 0%nat ]};
               StudentDashboard.currentQuestionIndex := 0%nat;
               StudentDashboard.isSubmitted := false;
               StudentDashboard.isSubmitting := false;
               StudentDashboard.hasLoggedTestStart := false |} in
  let db := {| session_row := session_row initial_db;
               student_answers :=
                 [answer_row "u1" "q1" 0; answer_row "u2" "q1" 3];
               student_submissions := [] |} in
  let res := StudentDashboard.handleSelectOption "u1" "q1" 2 None st db in
  StudentPage.answersFromRows (StudentDashboard.fetchAnswers "u1" res.1.2)
  = {[ "q1" := 2%nat ]}
  /\ StudentDashboard.answers res.1.1
     = StudentPage.answersFromRows
         (StudentDashboard.fetchAnswers "u1" res.1.2).
Proof.
  intros st db res.
  destruct (autosave_then_reload "u1" "q1" 2 st db
              {| StudentPage.core := st; StudentPage.loadingTest := false;
                 StudentPage.checkingStatus := false;
                 StudentPage.error := None |} [])
    as (H1 & _ & H3 & _).
  - exact (upserts_unique [answer_row "u1" "q1" 0; answer_row "u2" "q1" 3]).
  - split; [vm_compute; reflexivity | apply H3; reflexivity].
Defined.

(** ** Submission status *)

(** X8.  A final submission is found again by a reload: after an
    uninterrupted successful [handleFinalSubmit] of a student without a
    submission, the store holds exactly the row of that student,
    [checkSubmissionStatus] on any page that knows the test marks it as
    submitted and clears its spinner, and a second [handleFinalSubmit]
    writes nothing and alerts. *)
Theorem submission_found_on_reload
    (user : string) (isAutoSubmit again : bool) (st : StudentDashboard.State)
    (db : Database) (pg : StudentPage.Page) :
  StudentDashboard.fetchSubmissions user db = [] ->
  StudentPage.has_test (StudentPage.core pg) = true ->
  let res := StudentDashboard.handleFinalSubmit user isAutoSubmit None st db in
  let pg' := (StudentPage.checkSubmissionStatus user None res.1.2 pg).1 in
  let res2 :=
    StudentDashboard.handleFinalSubmit user again None res.1.1 res.1.2 in
  StudentDashboard.isSubmitted res.1.1 = true
  /\ StudentDashboard.fetchSubmissions user res.1.2
     = [{| sub_session_id := active_session; sub_student_id := user |}]
  /\ StudentDashboard.isSubmitted (StudentPage.core pg') = true
  /\ StudentPage.checkingStatus pg' = false
  /\ res2.1.2 = res.1.2
  /\ res2.2 = [Alert ("There was an error submitting your test: "
                      +:+ duplicate_key)].
Proof.
  intros Hf Ht res pg' res2.
  destruct (insert_fresh user db Hf) as [E1 E2].
  unfold StudentDashboard.handleFinalSubmit in res.
  cbn [StudentDashboard.handleFinalSubmit_request] in res.
  destruct (StudentDashboard.handleFinalSubmit_insert
              {| sub_session_id := active_session; sub_student_id := user |}
              None db) as [db1 reply] eqn:Ins.
  cbn [fst snd] in E1, E2. subst reply.
  cbn in res. subst res. cbn [fst snd] in *.
  assert (Hne : StudentDashboard.fetchSubmissions user db1 <> [])
    by (rewrite E2; discriminate).
  split; [reflexivity|]. split; [exact E2|].
  split; [|split; [|split]].
  - subst pg'. unfold StudentPage.checkSubmissionStatus.
    rewrite Ht, E2. reflexivity.
  - subst pg'. unfold StudentPage.checkSubmissionStatus.
    rewrite Ht, E2. reflexivity.
  - subst res2. unfold StudentDashboard.handleFinalSubmit.
    cbn [StudentDashboard.handleFinalSubmit_request].
    rewrite (insert_taken user db1 Hne). reflexivity.
  - subst res2. unfold StudentDashboard.handleFinalSubmit.
    cbn [StudentDashboard.handleFinalSubmit_request].
    rewrite (insert_taken user db1 Hne). reflexivity.
Qed.

Lemma submission_found_on_reload_witness :
  let row := {| id := active_session; test_id := Some "t1";
                status := started; duration_minutes := Some 1;
                start_time := Some 0; test_title := Some "Quiz";
                last_paused_at := None;
                total_paused_duration_seconds := 0 |} in
  let st := {| StudentDashboard.session := Some row;
               StudentDashboard.questions := [];
               StudentDashboard.answers := ∅;
               StudentDashboard.currentQuestionIndex := 0%nat;
               StudentDashboard.isSubmitted := false;
               StudentDashboard.isSubmitting := false;
               StudentDashboard.hasLoggedTestStart := true |} in
  let pg := {| StudentPage.core := st; StudentPage.loadingTest := false;
               StudentPage.checkingStatus := true;
               StudentPage.error := None |} in
  let res := StudentDashboard.handleFinalSubmit "u1" true None st initial_db in
  StudentDashboard.isSubmitted
    (StudentPage.core
       (StudentPage.checkSubmissionStatus "u1" None res.1.2 pg).1) = true.
Proof.
  intros row st pg res.
  destruct (submission_found_on_reload "u1" true false st initial_db pg
              eq_refl eq_refl) as (_ & _ & H & _).
  exact H.
Defined.

(** X9.  [checkSubmissionStatus] never takes the submitted mark away
    and never leaves its spinner on: whatever the store answers, a page
    marked as submitted stays so, the answers and questions are kept,
    and [checkingStatus] is false afterwards. *)
Theorem checkSubmissionStatus_keeps_mark
    (user : string) (fault : Fault) (db : Database) (pg : StudentPage.Page) :
  let pg' := (StudentPage.checkSubmissionStatus user fault db pg).1 in
  StudentPage.checkingStatus pg' = false
  /\ (StudentDashboard.isSubmitted (StudentPage.core pg) = true ->
      StudentDashboard.isSubmitted (StudentPage.core pg') = true)
  /\ (StudentDashboard.fetchSubmissions user db = [] ->
      StudentDashboard.isSubmitted (StudentPage.core pg')
      = StudentDashboard.isSubmitted (StudentPage.core pg))
  /\ StudentDashboard.answers (StudentPage.core pg')
     = StudentDashboard.answers (StudentPage.core pg)
  /\ StudentDashboard.questions (StudentPage.core pg')
     = StudentDashboard.questions (StudentPage.core pg).
Proof.
  intros pg'. subst pg'. unfold StudentPage.checkSubmissionStatus.
  destruct (StudentPage.has_test (StudentPage.core pg));
    [|cbn; repeat split; auto].
  cbn [negb].
  destruct fault as [message|].
  - destruct (StudentPage.includes "does not exist" message);
      cbn; repeat split; auto.
  - destruct (StudentDashboard.fetchSubmissions user db) as [|r [|r' rows]]
      eqn:F; cbn; repeat split; auto; discriminate.
Qed.

Lemma checkSubmissionStatus_keeps_mark_witness :
  let row := {| id := active_session; test_id := Some "t1";
                status := started; duration_minutes := Some 1;
                start_time := Some 0; test_title := Some "Quiz";
                last_paused_at := None;
                total_paused_duration_seconds := 0 |} in
  let st := {| StudentDashboard.session := Some row;
               StudentDashboard.questions := [];
               StudentDashboard.answers := ∅;
               StudentDashboard.currentQuestionIndex := 0%nat;
               StudentDashboard.isSubmitted := true;
               StudentDashboard.isSubmitting := false;
               StudentDashboard.hasLoggedTestStart := true |} in
  let pg := {| StudentPage.core := st; StudentPage.loadingTest := false;
               StudentPage.checkingStatus := true;
               StudentPage.error := None |} in
  StudentDashboard.fetchSubmissions "u1" initial_db = []
  /\ StudentDashboard.isSubmitted
       (StudentPage.core
          (StudentPage.checkSubmissionStatus "u1" None initial_db pg).1)
     = true.
Proof.
  intros row st pg. split; [reflexivity|].
  destruct (checkSubmissionStatus_keeps_mark "u1" None initial_db pg)
    as (_ & H & _).
  apply H. reflexivity.
Defined.

(** ** Starting again without a reset *)

(** X10.  A Start pressed on a [finished] session (no Reset in
    between) leaves every answer and submission row in place, and the
    student page keeps its answers and its submitted mark when the
    [started] snapshot arrives: a student who submitted in the run
    before is shown the report, not the test. *)
Theorem restart_keeps_previous_run
    (c : Click) (db : Database) (pg : StudentPage.Page) :
  click_status c = started ->
  id (session_row db) = active_session ->
  status (session_row db) = finished ->
  truthy (or_else (click_selectedTestId c) (test_id (session_row db)))
  = true ->
  StudentDashboard.session (StudentPage.core pg) = Some (session_row db) ->
  StudentDashboard.isSubmitted (StudentPage.core pg) = true ->
  StudentPage.checkingStatus pg = false ->
  let db' := click c db in
  let st' :=
    StudentDashboard.onSessionChange (session_row db') (StudentPage.core pg) in
  status (session_row db') = started
  /\ start_time (session_row db') = Some (click_at c)
  /\ student_answers db' = student_answers db
  /\ student_submissions db' = student_submissions db
  /\ StudentDashboard.isSubmitted st' = true
  /\ StudentDashboard.answers st'
     = StudentDashboard.answers (StudentPage.core pg)
  /\ (StudentPage.renderContent (StudentPage.setCore st' pg)).1.1
     = StudentPage.ViewReport.
Proof.
  intros Hc Hid Hst Hsel Hs Hsub Hch db' st'. subst st' db'.
  rewrite click_start by auto.
  cbn [with_row session_row student_answers student_submissions
       started_row status start_time].
  do 4 (split; [reflexivity|]).
  unfold StudentDashboard.onSessionChange.
  cbn [status Status_eqb andb].
  cbn [StudentDashboard.isSubmitted StudentDashboard.answers].
  split; [exact Hsub|]. split; [reflexivity|].
  unfold StudentPage.renderContent.
  cbn [StudentPage.setCore StudentPage.core StudentPage.checkingStatus
       StudentDashboard.session StudentDashboard.isSubmitted status].
  now rewrite Hch, Hsub.
Qed.

Lemma restart_keeps_previous_run_witness :
  let row := {| id := active_session; test_id := Some "t1";
                status := finished; duration_minutes := Some 1;
                start_time := Some 0; test_title := Some "Quiz";
                last_paused_at := None;
                total_paused_duration_seconds := 0 |} in
  let db := {| session_row := row;
               student_answers := [answer_row "u1" "q1" 2];
               student_submissions :=
                 [{| sub_session_id := active_session;
                     sub_student_id := "u1" |}] |} in
  let st := {| StudentDashboard.session := Some row;
               StudentDashboard.questions := [];
               StudentDashboard.answers := {[ "q1" := 2%nat ]};
               StudentDashboard.currentQuestionIndex := 0%nat;
               StudentDashboard.isSubmitted := true;
               StudentDashboard.isSubmitting := false;
               StudentDashboard.hasLoggedTestStart := true |} in
  let pg := {| StudentPage.core := st; StudentPage.loadingTest := false;
               StudentPage.checkingStatus := false;
               StudentPage.error := None |} in
  let c := press started 90000 [] (Some "t2") 1 in
  StudentDashboard.fetchSubmissions "u1" (click c db)
  = [{| sub_session_id := active_session; sub_student_id := "u1" |}]
  /\ (StudentPage.renderContent
        (StudentPage.setCore
           (StudentDashboard.onSessionChange (session_row (click c db)) st)
           pg)).1.1
     = StudentPage.ViewReport.
Proof.
  intros row db st pg c. split; [reflexivity|].
  destruct (restart_keeps_previous_run c db pg eq_refl eq_refl eq_refl
              eq_refl eq_refl eq_refl eq_refl)
    as (_ & _ & _ & _ & _ & _ & H).
  exact H.
Defined.

(** ** What the student page shows *)


(** ** Reading the session *)

(** X12.  A failed read of the session never replaces a session the
    student page already holds: the page keeps it, with its answers and
    submitted mark, and shows the connection banner; only a page
    without a session falls back to the default waiting session. *)
Theorem failed_fetch_keeps_session
    (errorMessage : string) (pg : StudentPage.Page) :
  let pg' :=
    (StudentPage.fetchTestSession (StudentPage.SessionError errorMessage)
       pg).1 in
  (forall s, StudentDashboard.session (StudentPage.core pg) = Some s ->
             StudentPage.core pg' = StudentPage.core pg)
  /\ (StudentDashboard.session (StudentPage.core pg) = None ->
      StudentDashboard.session (StudentPage.core pg') = Some default_session)
  /\ StudentPage.error pg' <> None
  /\ StudentDashboard.answers (StudentPage.core pg')
     = StudentDashboard.answers (StudentPage.core pg)
  /\ StudentDashboard.isSubmitted (StudentPage.core pg')
     = StudentDashboard.isSubmitted (StudentPage.core pg).
Proof.
  intros pg'. subst pg'. unfold StudentPage.fetchTestSession.
  cbn [fst StudentPage.setError StudentPage.core].
  destruct (StudentDashboard.session (StudentPage.core pg)) as [s|] eqn:E;
    cbn; repeat split; try discriminate; try reflexivity.
Qed.

Lemma failed_fetch_keeps_session_witness :
  let row := {| id := active_session; test_id := Some "t1";
                status := started; duration_minutes := Some 1;
                start_time := Some 0; test_title := Some "Quiz";
                last_paused_at := None;
                total_paused_duration_seconds := 0 |} in
  let st := {| StudentDashboard.session := Some row;
               StudentDashboard.questions := [];
               StudentDashboard.answers := {[ "q1" := 2%nat ]};
               StudentDashboard.currentQuestionIndex := 0%nat;
               StudentDashboard.isSubmitted := false;
               StudentDashboard.isSubmitting := false;
               StudentDashboard.hasLoggedTestStart := true |} in
  let pg := {| StudentPage.core := st; StudentPage.loadingTest := false;
               StudentPage.checkingStatus := false;
               StudentPage.error := None |} in
  StudentPage.core
    (StudentPage.fetchTestSession (StudentPage.SessionError "timeout") pg).1
  = st.
Proof.
  intros row st pg.
  destruct (failed_fetch_keeps_session "timeout" pg) as (H & _).
  exact (H row eq_refl).
Defined.

(** ** Control actions and the store *)

(** X13.  [handleControlAction] changes the store only when it ends in
    success and logs exactly one audit event exactly then: a failed
    reset, a failed update and a Start without a test leave the store
    as it was and log nothing; and no action other than the reset ever
    touches the answer or submission rows or the id of the session
    row. *)
Theorem control_action_writes_on_success_only
    (p : Panel) (newStatus : Status) (now : Z) (fault : Fault)
    (db : Database) :
  let res := handleControlAction p newStatus now fault db in
  (res.1.2 = ResetFailed \/ res.1.2 = StartAborted \/ res.1.2 = UpdateFailed ->
   res.1.1 = db /\ forall a, ~ In (Audit a) res.2)
  /\ (res.1.2 = ResetSucceeded \/ res.1.2 = UpdateSucceeded ->
      fault = None
      /\ res.2 = [Audit (match newStatus with
                         | waiting => "test_reset"
                         | _ => auditAction p newStatus
                         end)])
  /\ (fault <> None -> res.1.1 = db)
  /\ (newStatus <> waiting ->
      student_answers res.1.1 = student_answers db
      /\ student_submissions res.1.1 = student_submissions db
      /\ id (session_row res.1.1) = id (session_row db)).
Proof.
  intros res. subst res. unfold handleControlAction.
  destruct newStatus; destruct fault as [message|];
    try (destruct (buildUpdates p _ now) as [u|]);
    cbn [fst snd];
    (split; [intros H | split; [intros H | split; [intros H | intros H]]]).
  all: try (destruct H as [H | [H | H]]; discriminate H).
  all: try (destruct H as [H | H]; discriminate H).
  all: try (now destruct H).
  all: try (split; [reflexivity | intros a [E | []]; discriminate E]).
  all: try (repeat split; reflexivity).
  all: cbn; destruct (String.eqb _ _); repeat split.
Qed.

Lemma control_action_writes_on_success_only_witness :
  let p := {| tests := []; session := Some (session_row initial_db);
              selectedTestId := None; duration := Num 1 |} in
  (handleControlAction p started 5000 None initial_db).1.1 = initial_db
  /\ (handleControlAction p paused 5000 (Some "offline") initial_db).1.1
     = initial_db.
Proof.
  intros p.
  destruct (control_action_writes_on_success_only p started 5000 None
              initial_db) as (H1 & _).
  destruct (control_action_writes_on_success_only p paused 5000
              (Some "offline") initial_db) as (_ & _ & H3 & _).
  split; [apply H1; right; left; reflexivity | apply H3; discriminate].
Defined.

(** ** The test editor *)

Import TestEditorModal.

Ltac nat_cases :=
  repeat match goal with
         | |- context [(?a <=? ?b)%nat] => destruct (Nat.leb_spec a b)
         | |- context [(?a <? ?b)%nat] => destruct (Nat.ltb_spec a b)
         | |- context [Nat.eqb ?a ?b] => destruct (Nat.eqb_spec a b)
         end;
  cbn; try reflexivity; try lia.

Lemma markCorrect_count (from oIndex : nat) (opts : list QuestionOption) :
  length (List.filter isCorrect (markCorrect from oIndex opts))
  = if (from <=? oIndex)%nat && (oIndex <? from + length opts)%nat
    then 1%nat else 0%nat.
Proof.
  revert from. induction opts as [|o opts IH]; intros from;
    cbn [markCorrect List.filter length isCorrect].
  - nat_cases.
  - destruct (Nat.eqb_spec from oIndex) as [->|Hne];
      cbn [length]; rewrite IH; nat_cases.
Qed.

Lemma markCorrect_lookup (from oIndex k : nat) (opts : list QuestionOption) :
  markCorrect from oIndex opts !! k
  = (fun o => {| text := text o; isCorrect := Nat.eqb (from + k) oIndex |})
    <$> opts !! k.
Proof.
  revert from k. induction opts as [|o opts IH]; intros from k; [reflexivity|].
  destruct k as [|k]; cbn.
  - now rewrite Nat.add_0_r.
  - rewrite IH. now rewrite Nat.add_succ_r.
Qed.

Lemma option_text_keeps_count (oIndex : nat) (value : string)
    (o : QuestionOption) (opts : list QuestionOption) :
  opts !! oIndex = Some o ->
  length (List.filter isCorrect
            (<[oIndex := {| text := value; isCorrect := isCorrect o |}]> opts))
  = length (List.filter isCorrect opts).
Proof.
  revert oIndex. induction opts as [|x opts IH]; intros [|k] H;
    try discriminate.
  - injection H as ->. cbn. now destruct (isCorrect o).
  - change (opts !! k = Some o) in H.
    change (<[S k := ?y]> (x :: opts)) with (x :: <[k := y]> opts).
    cbn [List.filter]. destruct (isCorrect x); cbn [length];
      now rewrite (IH k H).
Qed.

Lemma filterOtherIndex_Forall (P : EditorQuestion -> Prop) (from index : nat)
    (qs : list EditorQuestion) :
  Forall P qs -> Forall P (filterOtherIndex from index qs).
Proof.
  revert from. induction qs as [|q qs IH]; intros from H; cbn; [constructor|].
  apply Forall_cons in H as [H1 H2].
  destruct (negb (Nat.eqb from index)); [constructor|]; auto.
Qed.

Lemma act_keeps_marks (a : Action) (qs qs' : list EditorQuestion) :
  Forall (fun q => (correctCount q <= 1)%nat) qs ->
  act a qs = Some qs' ->
  Forall (fun q => (correctCount q <= 1)%nat) qs'.
Proof.
  intros F H. destruct a as [i v|qi oi v|qi oi| |i]; cbn in H.
  - unfold handleQuestionChange in H.
    destruct (qs !! i) as [q|] eqn:L; [|discriminate]. injection H as <-.
    apply Forall_insert; [exact F|].
    apply (Forall_lookup_1 _ _ _ _ F L).
  - unfold handleOptionChange in H.
    destruct (qs !! qi) as [q|] eqn:L; [|discriminate].
    destruct (eq_options q !! oi) as [o|] eqn:O; [|discriminate].
    injection H as <-. apply Forall_insert; [exact F|].
    unfold correctCount. cbn. rewrite (option_text_keeps_count _ _ _ _ O).
    apply (Forall_lookup_1 _ _ _ _ F L).
  - unfold handleCorrectOptionChange in H.
    destruct (qs !! qi) as [q|] eqn:L; [|discriminate]. injection H as <-.
    apply Forall_insert; [exact F|].
    unfold correctCount. cbn. rewrite markCorrect_count.
    destruct (_ && _); lia.
  - injection H as <-. unfold addQuestion. apply Forall_app. split; [exact F|].
    constructor; [|constructor]. unfold correctCount. cbn. lia.
  - injection H as <-. now apply filterOtherIndex_Forall.
Qed.

(** X14.  In the editor of a new test no question ever has two
    options marked correct: from the initial question list, every
    sequence of edits that does not throw ends in a list in which each
    question has at most one correct option. *)
Theorem editor_at_most_one_correct
    (l : list Action) (qs : list EditorQuestion) :
  acts l initialQuestions = Some qs ->
  Forall (fun q => (correctCount q <= 1)%nat) qs.
Proof.
  assert (G : forall l qs0 qs1,
            Forall (fun q => (correctCount q <= 1)%nat) qs0 ->
            acts l qs0 = Some qs1 ->
            Forall (fun q => (correctCount q <= 1)%nat) qs1).
  { clear. induction l as [|a l IH]; intros qs0 qs1 F H; cbn in H.
    - now injection H as <-.
    - destruct (act a qs0) as [qs'|] eqn:A; [|discriminate].
      apply (IH qs' qs1); [|exact H]. now apply (act_keeps_marks a qs0). }
  apply G. constructor; [|constructor]. unfold correctCount. cbn. lia.
Qed.

Lemma editor_at_most_one_correct_witness :
  let l := [AddQuestion; CorrectOptionChange 0 2; OptionChange 1 0 "four";
            CorrectOptionChange 1 3; RemoveQuestion 5] in
  exists qs, acts l initialQuestions = Some qs
             /\ length qs = 2%nat
             /\ Forall (fun q => (correctCount q <= 1)%nat) qs.
Proof.
  intros l. eexists. split; [reflexivity|]. split; [reflexivity|].
  apply (editor_at_most_one_correct l). reflexivity.
Defined.

(** X15.  Choosing the correct option of a question marks that option
    and no other one of the question, keeps the texts, and leaves every
    other question as it was; with an option index outside the list all
    marks of the question are cleared, and a question index outside the
    list makes the handler throw. *)
Theorem correct_option_is_exclusive
    (qIndex oIndex : nat) (qs : list EditorQuestion) (q : EditorQuestion) :
  qs !! qIndex = Some q ->
  exists q',
    handleCorrectOptionChange qIndex oIndex qs = Some (<[qIndex := q']> qs)
    /\ eq_question_text q' = eq_question_text q
    /\ text <$> eq_options q' = text <$> eq_options q
    /\ (forall k o, eq_options q' !! k = Some o ->
                    isCorrect o = Nat.eqb k oIndex)
    /\ correctCount q'
       = (if (oIndex <? length (eq_options q))%nat then 1%nat else 0%nat)
    /\ (forall j, j <> qIndex -> (<[qIndex := q']> qs) !! j = qs !! j)
    /\ handleCorrectOptionChange (length qs) oIndex qs = None.
Proof.
  intros L. unfold handleCorrectOptionChange. rewrite L.
  eexists. split; [reflexivity|]. cbn.
  split; [reflexivity|]. split; [|split; [|split; [|split]]].
  - apply list_eq. intros k. rewrite !list_lookup_fmap, markCorrect_lookup.
    now destruct (eq_options q !! k).
  - intros k o H. rewrite markCorrect_lookup in H.
    destruct (eq_options q !! k); [|discriminate].
    injection H as <-. reflexivity.
  - unfold correctCount. cbn. rewrite markCorrect_count. reflexivity.
  - intros j Hj. now apply list_lookup_insert_ne.
  - now rewrite (lookup_ge_None_2 qs (length qs)).
Qed.

Lemma correct_option_is_exclusive_witness :
  exists qs',
    handleCorrectOptionChange 0 2 initialQuestions = Some qs'
    /\ (correctCount <$> qs') = [1%nat].
Proof.
  destruct (correct_option_is_exclusive 0 2 initialQuestions
              {| eq_id := None; eq_test_id := None; eq_question_text := "";
                 eq_options := [blankOption false; blankOption false;
                                blankOption false; blankOption false] |}
              eq_refl) as (q' & H & _ & _ & _ & Hc & _).
  exists (<[0%nat := q']> initialQuestions). split; [exact H|].
  cbn. now rewrite Hc.
Defined.

Lemma filterOtherIndex_spec (from index : nat) (qs : list EditorQuestion) :
  filterOtherIndex from index qs
  = if (index <? from)%nat then qs
    else take (index - from) qs ++ drop (S (index - from)) qs.
Proof.
  revert from. induction qs as [|q qs IH]; intros from;
    cbn [filterOtherIndex].
  - destruct (index <? from)%nat; [reflexivity|].
    now rewrite take_nil, drop_nil.
  - rewrite IH. destruct (Nat.eqb_spec from index) as [->|Hne]; cbn [negb].
    + assert ((index <? S index)%nat = true) as ->
        by (apply Nat.ltb_lt; lia).
      now rewrite Nat.ltb_irrefl, Nat.sub_diag.
    + destruct (Nat.ltb_spec index (S from)), (Nat.ltb_spec index from);
        try reflexivity; try lia.
      replace (index - from)%nat with (S (index - S from)) by lia.
      reflexivity.
Qed.

(** X16.  Removing a question deletes exactly the question at the
    index and keeps the others in order: the list shrinks by one for an
    index inside it and is unchanged for an index outside; removing the
    question just added gives the list back. *)
Theorem removeQuestion_deletes_index
    (index : nat) (qs : list EditorQuestion) :
  removeQuestion index qs = take index qs ++ drop (S index) qs
  /\ ((index < length qs)%nat ->
      length (removeQuestion index qs) = (length qs - 1)%nat)
  /\ ((length qs <= index)%nat -> removeQuestion index qs = qs)
  /\ removeQuestion (length qs) (addQuestion qs) = qs.
Proof.
  assert (E : forall i l, removeQuestion i l = take i l ++ drop (S i) l).
  { intros i l. unfold removeQuestion. rewrite filterOtherIndex_spec.
    cbn. now rewrite Nat.sub_0_r. }
  split; [apply E|]. split; [|split].
  - intros H. rewrite E, length_app, length_take, length_drop. lia.
  - intros H. rewrite E, take_ge, drop_ge by lia. apply app_nil_r.
  - rewrite E. unfold addQuestion.
    rewrite take_app_length, drop_app_ge by lia.
    replace (S (length qs) - length qs)%nat with 1%nat by lia.
    cbn. apply app_nil_r.
Qed.

Lemma removeQuestion_deletes_index_witness :
  length (removeQuestion 0 (addQuestion initialQuestions)) = 1%nat
  /\ removeQuestion 4 initialQuestions = initialQuestions.
Proof.
  destruct (removeQuestion_deletes_index 0 (addQuestion initialQuestions))
    as (_ & H1 & _).
  destruct (removeQuestion_deletes_index 4 initialQuestions) as (_ & _ & H2 & _).
  split; [rewrite H1; cbn; lia | apply H2; cbn; lia].
Defined.

(** ** Live progress *)

Lemma answersByStudent_count (rows : list string) (m : gmap string nat)
    (k : string) :
  default 0%nat
    (fold_left (fun m sid => <[sid := (default 0%nat (m !! sid) + 1)%nat]> m)
       rows m !! k)
  = (default 0%nat (m !! k) + length (List.filter (String.eqb k) rows))%nat.
Proof.
  revert m. induction rows as [|r rows IH]; intros m; cbn [fold_left].
  - cbn. lia.
  - rewrite IH. cbn [List.filter].
    destruct (String.eqb_spec k r) as [->|Hne].
    + rewrite lookup_insert_eq. cbn. lia.
    + rewrite lookup_insert_ne by congruence. lia.
Qed.

Lemma filter_fmap_length {A B} (f : A -> B) (p : B -> bool) (l : list A) :
  length (List.filter p (f <$> l))
  = length (List.filter (fun a => p (f a)) l).
Proof.
  induction l as [|a l IH]; [reflexivity|]. cbn.
  destruct (p (f a)); cbn; now rewrite IH.
Qed.

Lemma filter_filter_length {A} (p q : A -> bool) (l : list A) :
  length (List.filter p (List.filter q l))
  = length (List.filter (fun a => q a && p a) l).
Proof.
  induction l as [|a l IH]; [reflexivity|]. cbn.
  destruct (q a); cbn; [destruct (p a); cbn|]; now rewrite IH.
Qed.

(** X17.  While a test is running, the live table lists every student
    profile once, each with the number of answer rows that student has
    in the session and with the number of questions of the test; an
    error from a query leaves the table as it was. *)
Theorem live_progress_counts
    (sortByName : list LiveStudentStatus.StudentStatus ->
                  list LiveStudentStatus.StudentStatus)
    (s : TestSession) (profiles : list Profile) (questionIds : list string)
    (db : Database) (statuses : list LiveStudentStatus.StudentStatus)
    (message : string) :
  (forall l, sortByName l ≡ₚ l) ->
  truthy (test_id s) = true ->
  status s = started \/ status s = paused ->
  let result :=
    LiveStudentStatus.fetchData sortByName (Some s) None profiles questionIds
      db statuses in
  (forall x, x ∈ result ->
     LiveStudentStatus.answered x
     = length (rows_of_student (Profile_id (LiveStudentStatus.profile x)) db)
     /\ LiveStudentStatus.total x = length questionIds)
  /\ LiveStudentStatus.profile <$> result ≡ₚ profiles
  /\ LiveStudentStatus.fetchData sortByName (Some s) (Some message) profiles
       questionIds db statuses = statuses.
Proof.
  intros Hperm Ht Hst result. subst result.
  unfold LiveStudentStatus.fetchData, status_is. rewrite Ht.
  assert (Status_eqb (status s) waiting = false) as ->
    by (destruct Hst as [-> | ->]; reflexivity).
  assert (Status_eqb (status s) finished = false) as ->
    by (destruct Hst as [-> | ->]; reflexivity).
  cbn [negb orb]. split; [|split; [|reflexivity]].
  - intros x Hx. rewrite Hperm in Hx.
    apply list_elem_of_fmap in Hx as (p & -> & _). cbn. split; [|reflexivity].
    unfold LiveStudentStatus.answersByStudent.
    rewrite answersByStudent_count, lookup_empty. cbn.
    unfold LiveStudentStatus.answerRows, rows_of_student.
    rewrite filter_fmap_length, filter_filter_length.
    f_equal. apply filter_ext. intros a.
    now rewrite (String.eqb_sym (student_id a)).
  - rewrite Hperm. clear.
    induction profiles as [|p ps IH]; cbn; [reflexivity | now rewrite IH].
Qed.

Lemma live_progress_counts_witness :
  let s := {| id := active_session; test_id := Some "t1"; status := started;
              duration_minutes := Some 1; start_time := Some 0;
              test_title := Some "Quiz"; last_paused_at := None;
              total_paused_duration_seconds := 0 |} in
  let db := {| session_row := s;
               student_answers :=
                 [answer_row "u1" "q1" 0; answer_row "u2" "q1" 3;
                  answer_row "u1" "q2" 1];
               student_submissions := [] |} in
  let u1 := {| Profile_id := "u1"; full_name := "Ada";
               university_id := "1"; email := "ada@example.org";
               role := student |} in
  LiveStudentStatus.fetchData (fun l => l) (Some s) None [u1] ["q1"; "q2"]
    db []
  = [{| LiveStudentStatus.profile := u1; LiveStudentStatus.answered := 2;
        LiveStudentStatus.total := 2 |}]
  /\ LiveStudentStatus.profile
       <$> LiveStudentStatus.fetchData (fun l => l) (Some s) None [u1]
             ["q1"; "q2"] db []
     ≡ₚ [u1].
Proof.
  intros s db u1. split; [reflexivity|].
  destruct (live_progress_counts (fun l => l) s [u1] ["q1"; "q2"] db [] ""
              (fun l => reflexivity l) eq_refl (or_introl eq_refl))
    as (_ & H & _).
  exact H.
Defined.

(** ** The question breakdown *)

Import ResultsAnalytics.

Lemma bump_in_range (i : nat) (cells : list Cell) :
  Forall isNum cells -> (i < length cells)%nat ->
  Forall isNum (bump i cells)
  /\ length (bump i cells) = length cells
  /\ cellSum (bump i cells) = S (cellSum cells).
Proof.
  intros F H. unfold bump.
  destruct (cells !! i) as [c|] eqn:L;
    [|apply lookup_ge_None in L; lia].
  split; [|split].
  - apply Forall_insert; [exact F|].
    pose proof (Forall_lookup_1 _ _ _ _ F L) as N.
    now destruct c.
  - apply length_insert.
  - clear H. revert i L. induction F as [|x cells Hx F IH]; intros i L;
      [discriminate|].
    destruct i as [|i].
    + injection L as <-. destruct x; try contradiction. cbn. lia.
    + change (cells !! i = Some c) in L.
      change (<[S i := ?y]> (x :: cells)) with (x :: <[i := y]> cells).
      cbn [cellSum fold_right].
      change (fold_right _ 0%nat ?l) with (cellSum l).
      rewrite (IH i L). destruct x; lia.
Qed.

Lemma cellSum_zeros (n : nat) : cellSum (replicate n (Num 0)) = 0%nat.
Proof. induction n as [|n IH]; [reflexivity | exact IH]. Qed.

Lemma countStudent_total (q : Question) (part : gset string)
    (byStudent : gmap string (gmap string nat)) (s : Stats) (p : Profile) :
  stats_total (countStudent q part byStudent s p)
  = (stats_total s
     + if bool_decide (Profile_id p ∈ part) then 1 else 0)%nat.
Proof.
  unfold countStudent, stats_total.
  destruct (decide (Profile_id p ∈ part)) as [Hin|Hout].
  - rewrite bool_decide_eq_true_2 by assumption.
    destruct (byStudent !! Profile_id p ≫= _) as [idx|]; cbn; [|lia].
    destruct (match options q !! idx with
              | Some o => isCorrect o
              | None => false
              end); cbn; lia.
  - rewrite bool_decide_eq_false_2 by assumption. lia.
Qed.

Lemma countStudent_cells (q : Question) (part : gset string)
    (byStudent : gmap string (gmap string nat)) (s : Stats) (p : Profile) :
  (forall idx,
     byStudent !! Profile_id p ≫= (.!! Question_id q) = Some idx ->
     (idx < length (options q))%nat) ->
  Forall isNum (optionsCount s)
  /\ length (optionsCount s) = length (options q)
  /\ cellSum (optionsCount s) = (correct s + incorrect s)%nat ->
  let s' := countStudent q part byStudent s p in
  Forall isNum (optionsCount s')
  /\ length (optionsCount s') = length (options q)
  /\ cellSum (optionsCount s') = (correct s' + incorrect s')%nat.
Proof.
  intros R (F & L & C) s'. subst s'. unfold countStudent.
  destruct (decide (Profile_id p ∈ part)); [|auto].
  destruct (byStudent !! Profile_id p ≫= _) as [idx|] eqn:E; [|cbn; auto].
  destruct (bump_in_range idx (optionsCount s) F) as (F' & L' & C').
  { rewrite L. now apply R. }
  destruct (match options q !! idx with
            | Some o => isCorrect o
            | None => false
            end); cbn [optionsCount correct incorrect];
    repeat split; try assumption; lia.
Qed.

(** X18.  In the breakdown of a question, "Correct", "Incorrect" and
    "No Answer" add up to the number of listed students who submitted;
    and when every stored option index lies inside the option list of
    the question, the response counts of the options are numbers, one
    per option, that add up to "Correct" plus "Incorrect". *)
Theorem question_breakdown_adds_up
    (q : Question) (students : list Profile) (part : gset string)
    (byStudent : gmap string (gmap string nat)) :
  let st := questionStats q students part byStudent in
  (correct st + incorrect st + noAnswer st)%nat
  = length (List.filter (fun p => bool_decide (Profile_id p ∈ part)) students)
  /\ ((forall p idx,
         In p students ->
         byStudent !! Profile_id p ≫= (.!! Question_id q) = Some idx ->
         (idx < length (options q))%nat) ->
      Forall isNum (optionsCount st)
      /\ length (optionsCount st) = length (options q)
      /\ cellSum (optionsCount st) = (correct st + incorrect st)%nat).
Proof.
  intros st. subst st. unfold questionStats.
  set (s0 := {| correct := 0; incorrect := 0; noAnswer := 0;
                optionsCount := replicate (length (options q)) (Num 0) |}).
  assert (T : forall l s,
            stats_total (fold_left (countStudent q part byStudent) l s)
            = (stats_total s
               + length (List.filter
                           (fun p => bool_decide (Profile_id p ∈ part)) l))%nat).
  { induction l as [|p l IH]; intros s; cbn [fold_left List.filter].
    - cbn. lia.
    - rewrite IH, countStudent_total.
      destruct (bool_decide (Profile_id p ∈ part)); cbn; lia. }
  split.
  - apply (T students s0).
  - intros R.
    assert (J : forall l s,
              (forall p idx, In p l ->
                 byStudent !! Profile_id p ≫= (.!! Question_id q) = Some idx ->
                 (idx < length (options q))%nat) ->
              Forall isNum (optionsCount s)
              /\ length (optionsCount s) = length (options q)
              /\ cellSum (optionsCount s) = (correct s + incorrect s)%nat ->
              let s' := fold_left (countStudent q part byStudent) l s in
              Forall isNum (optionsCount s')
              /\ length (optionsCount s') = length (options q)
              /\ cellSum (optionsCount s') = (correct s' + incorrect s')%nat).
    { induction l as [|p l IH]; intros s Rl I; [exact I|].
      cbn [fold_left]. apply IH.
      - intros p' idx Hp'. apply Rl. now right.
      - apply countStudent_cells; [|exact I].
        intros idx. apply Rl. now left. }
    apply (J students s0 R). subst s0. cbn [optionsCount correct incorrect].
    split; [|split].
    + apply Forall_replicate. exact I.
    + apply length_replicate.
    + apply cellSum_zeros.
Qed.

Lemma question_breakdown_adds_up_witness :
  let q := {| Question_id := "q1"; Question_test_id := "t1";
              question_text := "2 + 2";
              options := [{| text := "3"; isCorrect := false |};
                          {| text := "4"; isCorrect := true |}] |} in
  let mk i := {| Profile_id := i; full_name := i; university_id := "";
                 email := ""; role := student |} in
  let students := [mk "u1"; mk "u2"; mk "u3"; mk "u4"] in
  let part : gset string := {[ "u1"; "u2"; "u3" ]} in
  let byStudent : gmap string (gmap string nat) :=
    {[ "u1" := {[ "q1" := 1%nat ]}; "u2" := {[ "q1" := 0%nat ]} ]} in
  let st := questionStats q students part byStudent in
  (correct st, incorrect st, noAnswer st) = (1%nat, 1%nat, 1%nat)
  /\ cellSum (optionsCount st) = (correct st + incorrect st)%nat.
Proof.
  intros q mk students part byStudent st. split; [reflexivity|].
  destruct (question_breakdown_adds_up q students part byStudent) as [_ H].
  apply H. intros p idx Hp.
  destruct Hp as [<- | [<- | [<- | [<- | []]]]]; vm_compute;
    intros E; try discriminate; injection E as <-; lia.
Defined.

(** ** The leaderboard and the report *)

Lemma lastFrom_filter (f p : StudentAnswer -> bool) (acc : option nat)
    (rows : list StudentAnswer) :
  lastFrom p acc (List.filter f rows)
  = lastFrom (fun a => f a && p a) acc rows.
Proof.
  revert acc. induction rows as [|a rows IH]; intros acc; [reflexivity|].
  unfold lastFrom in *. cbn [List.filter fold_left].
  destruct (f a); cbn [fold_left andb]; apply IH.
Qed.

Lemma lastFrom_ext (p p' : StudentAnswer -> bool) (acc : option nat)
    (rows : list StudentAnswer) :
  (forall a, p a = p' a) -> lastFrom p acc rows = lastFrom p' acc rows.
Proof.
  intros H. revert acc. induction rows as [|a rows IH]; intros acc;
    [reflexivity|].
  cbn. rewrite H. apply IH.
Qed.

Lemma lastFrom_never (acc : option nat) (rows : list StudentAnswer)
    (p : StudentAnswer -> bool) :
  (forall a, p a = false) -> lastFrom p acc rows = acc.
Proof.
  intros H. revert acc. induction rows as [|a rows IH]; intros acc;
    [reflexivity|].
  cbn. rewrite H. apply IH.
Qed.

Lemma fold_answers_lookup (k : string) (rows : list StudentAnswer)
    (m : gmap string nat) :
  fold_answers m rows !! k
  = lastFrom (fun a => String.eqb (question_id a) k) (m !! k) rows.
Proof.
  revert m. induction rows as [|a rows IH]; intros m; [reflexivity|].
  change (fold_answers m (a :: rows))
    with (fold_answers
            (<[question_id a := selected_option_index a]> m) rows).
  rewrite IH. unfold lastFrom. cbn [fold_left]. f_equal.
  destruct (String.eqb_spec (question_id a) k) as [->|Hne].
  - apply lookup_insert_eq.
  - now apply lookup_insert_ne.
Qed.

Lemma answersByStudent_lookup (u k : string) (rows : list StudentAnswer)
    (m : gmap string (gmap string nat)) :
  default ∅
    (fold_left
       (fun m ans =>
          <[student_id ans :=
              <[question_id ans := selected_option_index ans]>
                (default ∅ (m !! student_id ans))]> m)
       rows m !! u) !! k
  = lastFrom (fun a => String.eqb (student_id a) u
                       && String.eqb (question_id a) k)
      (default ∅ (m !! u) !! k) rows.
Proof.
  revert m. induction rows as [|a rows IH]; intros m; [reflexivity|].
  cbn [fold_left lastFrom]. rewrite IH. unfold lastFrom. cbn [fold_left].
  f_equal.
  destruct (String.eqb_spec (student_id a) u) as [->|Hu]; cbn [andb].
  - rewrite lookup_insert_eq. cbn.
    destruct (String.eqb_spec (question_id a) k) as [->|Hk].
    + apply lookup_insert_eq.
    + now apply lookup_insert_ne.
  - now rewrite lookup_insert_ne.
Qed.

Lemma NoDup_bool_filter {A} (f : A -> bool) (l : list A) :
  NoDup l -> NoDup (List.filter f l).
Proof.
  induction l as [|a l IH]; cbn; intros H; [constructor|].
  apply NoDup_cons in H as [H1 H2].
  destruct (f a); [|now apply IH].
  apply NoDup_cons. split; [|now apply IH].
  intros Hin. apply H1.
  apply list_elem_of_In, filter_In in Hin as [Hin _].
  now apply list_elem_of_In.
Qed.

Lemma correctAnswers_agree (qs : list Question) (m1 m2 : gmap string nat) :
  (forall k, k ∈ Question_id <$> qs -> m1 !! k = m2 !! k) ->
  StudentDashboard.correctAnswers qs m1 = StudentDashboard.correctAnswers qs m2.
Proof.
  intros H. unfold StudentDashboard.correctAnswers.
  apply Permutation_length, NoDup_Permutation.
  - apply NoDup_bool_filter, NoDup_map_to_list.
  - apply NoDup_bool_filter, NoDup_map_to_list.
  - intros [k v]. rewrite !list_elem_of_In, !filter_In, <- !list_elem_of_In,
      !elem_of_map_to_list.
    split; intros [L C]; (split; [|exact C]);
      pose proof (countsAsCorrect_known qs (k, v) C) as K;
      specialize (H k K); congruence.
Qed.

(** X19.  The score the results page computes for a student from the
    stored answers is the "Correct Answers" number of that student's
    own report once the page has reloaded its answers from the store,
    for the same list of questions. *)
Theorem leaderboard_matches_report
    (qs : list Question) (db : Database) (user : string) :
  ResultsAnalytics.score qs
    (ResultsAnalytics.answersByStudent (ResultsAnalytics.answerRows qs db))
    user
  = StudentDashboard.correctAnswers qs
      (StudentPage.answersFromRows (StudentDashboard.fetchAnswers user db)).
Proof.
  unfold ResultsAnalytics.score. apply correctAnswers_agree. intros k Hk.
  unfold ResultsAnalytics.answersByStudent.
  rewrite answersByStudent_lookup.
  change (StudentPage.answersFromRows ?r) with (fold_answers ∅ r).
  rewrite fold_answers_lookup.
  unfold ResultsAnalytics.answerRows, StudentDashboard.fetchAnswers.
  rewrite !lastFrom_filter, !lookup_empty. cbn [default].
  rewrite lookup_empty.
  apply lastFrom_ext. intros a.
  destruct (String.eqb_spec (question_id a) k) as [->|Hne];
    [|now rewrite !andb_false_r].
  rewrite !andb_true_r.
  assert (existsb (String.eqb k) (Question_id <$> qs) = true) as ->.
  { apply existsb_exists. exists k.
    split; [now apply list_elem_of_In | apply String.eqb_refl]. }
  rewrite andb_true_r. apply andb_comm.
Qed.

(** ** Passwords *)

(** X20.  [handleSave] of the administrator's profile form stores a
    password only when it has at least six code units and equals its
    confirmation; it logs the update only when it ends in success; and
    when the name was stored but the password update fails, the new
    name stays stored although nothing is logged and no success is
    reported. *)
Theorem admin_password_rules
    (profile_full_name fullName : string)
    (password confirmPassword : Password)
    (profileFault authFault : Fault) (acc : Account) :
  let res :=
    ProfileModal.handleSave profile_full_name fullName password
      confirmPassword profileFault authFault acc in
  (acc_password res.1.1 <> acc_password acc ->
   acc_password res.1.1 = password
   /\ password = confirmPassword
   /\ (6 <= length password)%nat)
  /\ (res.2 <> [] -> res.1.2 = ProfileModal.Saved)
  /\ ((length password < 6)%nat \/ password <> confirmPassword ->
      password <> [] -> res.1.1 = acc)
  /\ (fullName <> profile_full_name -> profileFault = None ->
      (6 <= length password)%nat -> password = confirmPassword ->
      forall message, authFault = Some message ->
      acc_full_name res.1.1 = fullName
      /\ acc_password res.1.1 = acc_password acc
      /\ res.1.2 = ProfileModal.Thrown message
      /\ res.2 = []).
Proof.
  intros res. subst res. unfold ProfileModal.handleSave.
  destruct (Nat.eqb_spec (length password) 0) as [Z0|NZ]; cbn [negb andb].
  - assert (password = []) as -> by (now destruct password).
    destruct (negb (String.eqb fullName profile_full_name)),
      profileFault; cbn;
      intuition (try congruence; try discriminate; cbn in *; try lia).
  - destruct (bool_decide_reflect (password = confirmPassword)) as [E|NE];
      cbn [negb];
      [|cbn; intuition (try congruence; try discriminate)].
    destruct (Nat.ltb_spec (length password) 6) as [Lt|Ge];
      [cbn; intuition (try congruence; try discriminate; try lia)|].
    destruct (String.eqb_spec fullName profile_full_name),
      profileFault, authFault; cbn;
      intuition (try congruence; try discriminate; try lia).
Qed.

Lemma admin_password_rules_witness :
  let pw : Password := [112; 97; 115; 115; 119; 100]%N in
  let acc := {| acc_full_name := "Ada"; acc_password := [120]%N |} in
  let res :=
    ProfileModal.handleSave "Ada" "Ada L." pw pw None (Some "weak") acc in
  res = ({| acc_full_name := "Ada L."; acc_password := [120]%N |},
         ProfileModal.Thrown "weak", []).
Proof.
  intros pw acc res.
  destruct (admin_password_rules "Ada" "Ada L." pw pw None (Some "weak") acc)
    as (_ & _ & _ & H).
  destruct (H ltac:(discriminate) eq_refl ltac:(cbn; lia) eq_refl
              "weak" eq_refl) as (H1 & H2 & H3 & H4).
  subst res. reflexivity.
Defined.

(** X21.  [handlePasswordUpdate] of the student page changes the
    stored password only to one of at least six code units that equals
    its confirmation, clears the two fields and logs the event exactly
    when the update succeeded, and otherwise leaves the account and the
    fields as they were. *)
Theorem student_password_rules
    (password confirmPassword : Password) (fault : Fault) (acc : Account) :
  let res :=
    ProfileManagement.handlePasswordUpdate password confirmPassword fault
      acc in
  (res.1.1.2 = ProfileManagement.Updated
   <-> password = confirmPassword /\ (6 <= length password)%nat
       /\ fault = None)
  /\ (res.1.1.2 = ProfileManagement.Updated ->
      acc_password res.1.1.1 = password /\ res.1.2 = ([], [])
      /\ res.2 = true)
  /\ (res.1.1.2 <> ProfileManagement.Updated ->
      res.1.1.1 = acc /\ res.1.2 = (password, confirmPassword)
      /\ res.2 = false).
Proof.
  intros res. subst res. unfold ProfileManagement.handlePasswordUpdate.
  destruct (bool_decide_reflect (password = confirmPassword)) as [E|NE];
    cbn [negb];
    [|cbn; intuition (try congruence; try discriminate)].
  destruct (Nat.ltb_spec (length password) 6) as [Lt|Ge];
    [cbn; intuition (try congruence; try discriminate; try lia)|].
  destruct fault as [message|]; cbn;
    intuition (try congruence; try discriminate; try lia).
Qed.

Lemma student_password_rules_witness :
  let pw : Password := [112; 97; 115; 115; 119; 100]%N in
  let acc := {| acc_full_name := "Ada"; acc_password := [120]%N |} in
  acc_password
    (ProfileManagement.handlePasswordUpdate pw pw None acc).1.1.1 = pw
  /\ (ProfileManagement.handlePasswordUpdate [120]%N [120]%N None acc).1.1.1
     = acc.
Proof.
  intros pw acc.
  destruct (student_password_rules pw pw None acc) as (H1 & H2 & _).
  destruct (student_password_rules [120]%N [120]%N None acc) as (_ & _ & H3).
  split.
  - apply H2. reflexivity.
  - apply H3. discriminate.
Defined.


(** ** Importing a test *)

Import TestManagement.

Lemma filter_fresh_id (newTestId : string) (tests : list TestRow) :
  (forall t, In t tests -> row_id t <> newTestId) ->
  List.filter (fun t => negb (String.eqb (row_id t) newTestId)) tests
  = tests.
Proof.
  induction tests as [|t tests IH]; intros H; [reflexivity|]. cbn.
  destruct (String.eqb_spec (row_id t) newTestId) as [E|_].
  - exfalso. apply (H t); [now left | exact E].
  - cbn. f_equal. apply IH. intros t' Ht'. apply H. now right.
Qed.

Lemma existsb_is_null (l : list Json) :
  existsb is_null l = true <-> In JNull l.
Proof.
  rewrite existsb_exists. split.
  - intros (x & Hx & Hn). now destruct x.
  - intros H. now exists JNull.
Qed.

Lemma lookup_fmap_indexed {A B} (f : nat * A -> B) (l : list A)
    (from i : nat) (x : A) :
  l !! i = Some x -> (f <$> indexed from l) !! i = Some (f ((from + i)%nat, x)).
Proof.
  revert from i. induction l as [|y l IH]; intros from i H; [discriminate|].
  destruct i as [|i].
  - inversion H. subst. cbn. now rewrite Nat.add_0_r.
  - cbn in H.
    change ((f <$> indexed from (y :: l)) !! S i)
      with ((f <$> indexed (S from) l) !! i).
    rewrite (IH (S from) i H). do 3 f_equal. lia.
Qed.

Lemma length_fmap_indexed {A B} (f : nat * A -> B) (l : list A) (from : nat) :
  length (f <$> indexed from l) = length l.
Proof.
  revert from. induction l as [|y l IH]; intros from; [reflexivity|].
  cbn. now rewrite IH.
Qed.

(** X22.  An import adds the test with all its questions or nothing,
    unless an entry of the question list is [null].  With an id not
    used before and a rollback that reaches the store: no error is
    shown only when the test row and, in order, one question row per
    entry, each pointing to the new test and carrying the text and
    options of its entry, were added and the import was logged; an
    import that shows an error logs nothing, and leaves the catalog as
    it was when no entry of the list is [null].  When an entry is
    [null] and the store accepts the test, the error of reading the
    entry is shown and the new test row stays in the catalog without
    any question. *)
Theorem import_atomic_unless_null_entry
    (user_id : string) (content : FileContent)
    (newTestId : string) (newQuestionId : nat -> string)
    (nullRead : string -> string)
    (testFault questionsFault : option StoreError) (c : Catalog) :
  (forall t, In t (cat_tests c) -> row_id t <> newTestId) ->
  let res :=
    handleFileImport user_id content newTestId newQuestionId nullRead
      testFault questionsFault None c in
  (res.1.2 = None ->
   exists data title questions row added,
     content = Parsed data
     /\ prop data "title" = Some title
     /\ truthy_value (Some title) = true
     /\ prop data "questions" = Some (JArray questions)
     /\ ~ In JNull questions
     /\ cat_tests res.1.1 = cat_tests c ++ [row]
     /\ row_id row = newTestId
     /\ row_title row = title
     /\ row_created_by row = user_id
     /\ cat_questions res.1.1 = cat_questions c ++ added
     /\ length added = length questions
     /\ (forall (i : nat) q,
           questions !! i = Some q ->
           added !! i
           = Some {| qrow_id := newQuestionId i;
                     qrow_test_id := newTestId;
                     qrow_question_text := prop q "question_text";
                     qrow_options := prop q "options" |})
     /\ res.2 = [Audit "test_imported"])
  /\ (res.1.2 <> None -> res.2 = [])
  /\ (res.1.2 <> None ->
      (forall data questions,
         content = Parsed data ->
         prop data "questions" = Some (JArray questions) ->
         ~ In JNull questions) ->
      res.1.1 = c)
  /\ (forall data title questions,
        content = Parsed data ->
        prop data "title" = Some title ->
        truthy_value (Some title) = true ->
        prop data "questions" = Some (JArray questions) ->
        In JNull questions ->
        testFault = None ->
        res.1.2 = Some (nullRead "question_text")
        /\ res.2 = []
        /\ cat_questions res.1.1 = cat_questions c
        /\ exists row,
             cat_tests res.1.1 = cat_tests c ++ [row]
             /\ row_id row = newTestId
             /\ row_title row = title
             /\ row_created_by row = user_id).
Proof.
  intros Hfresh res.
  assert (Hcases :
    (exists msg, res = (c, Some msg, [])
                 /\ forall data title questions,
                      content = Parsed data ->
                      prop data "title" = Some title ->
                      truthy_value (Some title) = true ->
                      prop data "questions" = Some (JArray questions) ->
                      testFault <> None)
    \/ (exists data title questions,
          content = Parsed data
          /\ prop data "title" = Some title
          /\ truthy_value (Some title) = true
          /\ prop data "questions" = Some (JArray questions)
          /\ testFault = None
          /\ res
             = (let row :=
                  {| row_id := newTestId; row_title := title;
                     row_description :=
                       if truthy_value (prop data "description")
                       then default (JString "") (prop data "description")
                       else JString "";
                     row_created_by := user_id |} in
                let c1 := {| cat_tests := cat_tests c ++ [row];
                             cat_questions := cat_questions c |} in
                if existsb is_null questions then
                  (c1, Some (nullRead "question_text"), [])
                else
                  match questionsFault with
                  | Some e =>
                      ({| cat_tests :=
                            List.filter
                              (fun t =>
                                 negb (String.eqb (row_id t) newTestId))
                              (cat_tests c1);
                          cat_questions := cat_questions c1 |},
                       Some (shown e), [])
                  | None =>
                      ({| cat_tests := cat_tests c1;
                          cat_questions :=
                            cat_questions c1
                            ++ (questionToInsert newTestId newQuestionId
                                  <$> indexed 0 questions) |},
                       None, [Audit "test_imported"])
                  end))).
  { subst res. unfold handleFileImport.
    destruct content as [|message|data].
    - left. eexists. split; [reflexivity|]. discriminate.
    - left. eexists. split; [reflexivity|]. discriminate.
    - destruct data as [|b|q|s|items|fields];
        try (left; eexists; split; [reflexivity|];
             intros d t qs Hd Ht; inversion Hd; subst; discriminate Ht).
      destruct (prop (JObject fields) "title") as [title|] eqn:Et;
        [|left; eexists; split; [reflexivity|];
          intros d t qs Hd Ht; inversion Hd; subst;
          rewrite Et in Ht; discriminate Ht].
      destruct (prop (JObject fields) "questions") as [qv|] eqn:Eq;
        [|left; eexists; split; [reflexivity|];
          intros d t qs Hd _ _ Hq; inversion Hd; subst;
          rewrite Eq in Hq; discriminate Hq].
      destruct qv as [|b|q|s|questions|fs];
        try (left; eexists; split; [reflexivity|];
             intros d t qs Hd _ _ Hq; inversion Hd; subst;
             rewrite Eq in Hq; discriminate Hq).
      destruct (truthy_value (Some title)) eqn:T;
        [|left; eexists; split; [reflexivity|];
          intros d t qs Hd Ht Htr; inversion Hd; subst;
          rewrite Et in Ht; inversion Ht; subst; congruence].
      destruct testFault as [e|].
      + left. eexists. split; [reflexivity|]. intros; discriminate.
      + right. exists (JObject fields), title, questions.
        repeat (split; [reflexivity || assumption|]).
        destruct (existsb is_null questions); [reflexivity|].
        now destruct questionsFault. }
  destruct Hcases as [(msg & Hres & Hno)
                     | (data & title & questions & Hc & Ht & Htr & Hq
                        & Hf & Hres)].
  - rewrite Hres. cbn [fst snd].
    split; [discriminate|]. split; [reflexivity|]. split; [reflexivity|].
    intros d t qs Hd Ht' Htr' Hq' _ Hf. exfalso.
    exact (Hno d t qs Hd Ht' Htr' Hq' Hf).
  - cbn zeta in Hres.
    destruct (existsb is_null questions) eqn:En.
    + rewrite Hres. cbn [fst snd cat_tests cat_questions].
      split; [discriminate|]. split; [reflexivity|].
      split.
      * intros _ Hnn. exfalso.
        apply (Hnn data questions Hc Hq). now apply existsb_is_null.
      * intros d t qs Hd Ht' _ _ _ _. subst content. inversion Hd; subst d.
        rewrite Ht in Ht'. inversion Ht'; subst t.
        split; [reflexivity|]. split; [reflexivity|].
        split; [reflexivity|]. eexists. split; [reflexivity|].
        repeat split.
    + assert (Hnn : ~ In JNull questions).
      { intros Hin. apply existsb_is_null in Hin. congruence. }
      destruct questionsFault as [e|].
      * rewrite Hres. cbn [fst snd cat_tests cat_questions].
        split; [discriminate|]. split; [reflexivity|].
        split.
        -- intros _ _. destruct c as [tests qs].
           cbn [cat_tests cat_questions] in *. f_equal.
           rewrite List.filter_app, (filter_fresh_id _ _ Hfresh). cbn.
           rewrite String.eqb_refl. cbn. apply app_nil_r.
        -- intros d t qs Hd _ _ Hq' Hin _. subst content.
           inversion Hd; subst d. rewrite Hq in Hq'. inversion Hq'; subst qs.
           contradiction.
      * rewrite Hres. cbn [fst snd cat_tests cat_questions].
        split.
        -- intros _. exists data, title, questions. eexists. eexists.
           split; [exact Hc|]. split; [exact Ht|]. split; [exact Htr|].
           split; [exact Hq|]. split; [exact Hnn|].
           split; [reflexivity|]. split; [reflexivity|].
           split; [reflexivity|]. split; [reflexivity|].
           split; [reflexivity|].
           split; [apply length_fmap_indexed|].
           split; [|reflexivity].
           intros i q Hi.
           now rewrite (lookup_fmap_indexed _ _ 0 i q Hi).
        -- split; [intros H; now contradiction H|].
           split; [intros H; now contradiction H|].
           intros d t qs Hd _ _ Hq' Hin _. subst content.
           inversion Hd; subst d. rewrite Hq in Hq'. inversion Hq'; subst qs.
           contradiction.
Qed.

Lemma import_atomic_unless_null_entry_witness :
  let c := {| cat_tests :=
                [{| row_id := "t1"; row_title := JString "Quiz";
                    row_description := JString "";
                    row_created_by := "a1" |}];
              cat_questions := [] |} in
  let entry := JObject [("question_text", JString "2 + 2");
                        ("options", JArray [])] in
  let good := JObject [("title", JString "Exam");
                       ("questions", JArray [entry])] in
  let bad := JObject [("title", JString "Exam");
                      ("questions", JArray [entry; JNull])] in
  let nullRead := fun key : string => "reading " +:+ key +:+ " of null" in
  let rejected :=
    handleFileImport "a1" (Parsed good) "t2" (fun i => "q" +:+ pretty i)
      nullRead None
      (Some {| se_message := "bad row"; se_isError := true |}) None c in
  let thrown :=
    handleFileImport "a1" (Parsed bad) "t2" (fun i => "q" +:+ pretty i)
      nullRead None None None c in
  rejected.1.2 = Some "bad row" /\ rejected.1.1 = c
  /\ thrown.1.2 = Some "reading question_text of null"
  /\ (row_id <$> cat_tests thrown.1.1) = ["t1"; "t2"]
  /\ cat_questions thrown.1.1 = [].
Proof.
  intros c entry good bad nullRead rejected thrown.
  assert (Hfresh : forall t, In t (cat_tests c) -> row_id t <> "t2").
  { intros t [<- | []]. discriminate. }
  destruct (import_atomic_unless_null_entry "a1" (Parsed good) "t2"
              (fun i => "q" +:+ pretty i) nullRead None
              (Some {| se_message := "bad row"; se_isError := true |}) c
              Hfresh) as (_ & _ & Hback & _).
  destruct (import_atomic_unless_null_entry "a1" (Parsed bad) "t2"
              (fun i => "q" +:+ pretty i) nullRead None None c
              Hfresh) as (_ & _ & _ & Horphan).
  destruct (Horphan bad (JString "Exam") [entry; JNull] eq_refl eq_refl
              eq_refl eq_refl (or_intror (or_introl eq_refl)) eq_refl)
    as (Hmsg & _ & Hqs & row & Hrows & Hid & _).
  split; [reflexivity|].
  split.
  { apply Hback; [discriminate|].
    intros d qs Hd Hq. inversion Hd; subst d. inversion Hq; subst qs.
    intros [H | []]. discriminate H. }
  split; [exact Hmsg|].
  split; [|exact Hqs].
  fold thrown in Hrows. rewrite Hrows, fmap_app. cbn. now rewrite Hid.
Defined.
